(** * findNodeHandle: resolving a component reference to a node handle

    A shallow embedding of
    [Libraries/Renderer/src/renderers/native/findNodeHandle.js]
    together with the properties its specification states.

    The module is a single dispatch routine.  It reads three pieces of
    ambient state (the current owner, the reconciler's instance map and two
    injected strategy slots), writes one development-only flag, and either
    returns a value or throws; the development check that writes the flag
    dereferences the owner's [stateNode] and can itself throw.  The embedding threads that state explicitly
    and logs every observable step in a trace, so that statements such as
    "without consulting the instance map" can be read off the trace. *)

From Stdlib Require Import SpecFloat.
From stdpp Require Import gmap strings list pretty.

Local Open Scope string_scope.
Local Open Scope list_scope.

(** ** JavaScript values and ordinary objects *)

Module JS.

(** Heap addresses of objects and functions. *)
Abbreviation loc := positive (only parsing).

(** A JavaScript number is an IEEE-754 double: signed zeros, infinities,
    NaN and finite values, as in the Standard Library's [spec_float]. *)
Abbreviation number := spec_float (only parsing).

#[export] Instance number_eq_dec : EqDecision number.
Proof. solve_decision. Defined.

Inductive value : Type :=
| VUndefined
| VNull
| VBool (b : bool)
| VNumber (n : number)
| VString (s : string)
| VSymbol (id : positive)
| VObject (l : loc)
| VFunction (l : loc).

#[export] Instance value_eq_dec : EqDecision value.
Proof. solve_decision. Defined.

(** [typeof v] *)
Definition typeof (v : value) : string :=
  match v with
  | VUndefined => "undefined"
  | VNull => "object"
  | VBool _ => "boolean"
  | VNumber _ => "number"
  | VString _ => "string"
  | VSymbol _ => "symbol"
  | VObject _ => "object"
  | VFunction _ => "function"
  end.

(** [v == null] *)
Definition is_nullish (v : value) : bool :=
  match v with
  | VUndefined | VNull => true
  | _ => false
  end.

(** The address a value refers to, if it is an object or a function. *)
Definition address_of (v : value) : option loc :=
  match v with
  | VObject l | VFunction l => Some l
  | _ => None
  end.

(** A boolean, number, string or symbol. *)
Definition is_primitive (v : value) : bool :=
  match v with
  | VBool _ | VNumber _ | VString _ | VSymbol _ => true
  | _ => false
  end.

(** ToBoolean, as applied by [if (v)] and [||]. *)
Definition truthy (v : value) : bool :=
  match v with
  | VUndefined | VNull => false
  | VBool b => b
  | VNumber (S754_zero _) | VNumber S754_nan => false
  | VNumber _ => true
  | VString s => negb (String.eqb s "")
  | VSymbol _ | VObject _ | VFunction _ => true
  end.

(** [a || b] *)
Definition js_or (a b : value) : value := if truthy a then a else b.

(** An ordinary object: its own enumerable properties in insertion order
    (the order [Object.keys] reports) and the properties it sees through
    its prototype chain. *)
Record object : Type := Object {
  own : list (string * value);
  inherited : gmap string value
}.

Definition empty_object : object := {| own := []; inherited := ∅ |}.

Fixpoint assoc (k : string) (ps : list (string * value)) : option value :=
  match ps with
  | [] => None
  | (k', v) :: ps' => if decide (k = k') then Some v else assoc k ps'
  end.

(** Assignment to a key of an association list: in place when the key is
    there, appended otherwise. *)
Fixpoint assoc_set (k : string) (v : value) (ps : list (string * value))
  : list (string * value) :=
  match ps with
  | [] => [(k, v)]
  | (k', v') :: ps' =>
      if decide (k = k') then (k', v) :: ps' else (k', v') :: assoc_set k v ps'
  end.

(** [o[k]] *)
Definition obj_get (o : object) (k : string) : value :=
  match assoc k (own o) with
  | Some v => v
  | None => default VUndefined (inherited o !! k)
  end.

(** [k in o] *)
Definition obj_has (o : object) (k : string) : bool :=
  match assoc k (own o) with
  | Some _ => true
  | None => bool_decide (is_Some (inherited o !! k))
  end.

(** [o[k] = v] on a writable, extensible object without setters. *)
Definition obj_set (o : object) (k : string) (v : value) : object :=
  {| own := assoc_set k v (own o); inherited := inherited o |}.

(** [Object.keys(o)] *)
Definition obj_keys (o : object) : list string := (own o).*1.

(** The heap: an address that was never populated denotes an object
    without properties. *)
Definition heap_obj (h : gmap loc object) (l : loc) : object :=
  default empty_object (h !! l).

Definition heap_set (h : gmap loc object) (l : loc) (k : string) (v : value)
  : gmap loc object :=
  <[l := obj_set (heap_obj h l) k v]> h.

(** [v.k] for a value that is not null or undefined.  Primitives have no
    property of the names this module reads. *)
Definition get_prop (h : gmap loc object) (v : value) (k : string) : value :=
  match v with
  | VObject l | VFunction l => obj_get (heap_obj h l) k
  | _ => VUndefined
  end.

(** [k in v] for an object [v]. *)
Definition has_prop (h : gmap loc object) (v : value) (k : string) : bool :=
  match v with
  | VObject l | VFunction l => obj_has (heap_obj h l) k
  | _ => false
  end.

(** [Object.keys(v)] for a value that is not null or undefined: the index
    keys of a string, the own keys of an object, nothing for the other
    primitives. *)
Definition keys (h : gmap loc object) (v : value) : list string :=
  match v with
  | VObject l | VFunction l => obj_keys (heap_obj h l)
  | VString s => pretty <$> seq 0 (String.length s)
  | _ => []
  end.

End JS.

Import JS.

(** ** The ambient state of the module *)

(** [ReactCurrentOwner.current] is typed [ReactInstance | Fiber | null].
    The module tells the two apart by [typeof owner.tag === 'number'] and
    reaches a fiber's flag through [owner.stateNode], which [ReactFiber]
    types [any]: the instance of a class component, [null] for a functional
    component.  A stack instance is itself the object that bears the
    flag. *)
Inductive owner : Type :=
| Fiber (tag : number) (stateNode : value)
| ReactInstance (self : loc).

#[export] Instance owner_eq_dec : EqDecision owner.
Proof. solve_decision. Defined.

(** The two call sites of an injected strategy. *)
Inductive slot : Type := FindNode | FindRootNodeID.

#[export] Instance slot_eq_dec : EqDecision slot.
Proof. solve_decision. Defined.

(** Arguments substituted into a message format. *)
Inductive arg : Type :=
| AValue (v : value)
| AKeys (ks : list string).

(** Why the engine raised a [TypeError].  The text of the message differs
    from one engine to the next and is not modelled. *)
Inductive type_error : Type :=
| NotAFunction (callee : value)
| CannotReadProperty (base : value) (key : string)
| CannotSetProperty (base : value) (key : string).

Inductive exn : Type :=
| TypeError (why : type_error)
| InvariantViolation (format : string) (args : list arg)
| HostError (v : value).

Inductive result (A : Type) : Type :=
| Return (a : A)
| Throw (e : exn).

Arguments Return {A} a.
Arguments Throw {A} e.

(** What a call does that an observer can see, in order. *)
Inductive event : Type :=
| EvWarning (o : owner) (format : string) (args : list arg)
| EvInstanceMapGet (key : value)
| EvInvoke (s : slot) (callee : value) (argument : value).

(** Everything a call can read or write: the objects of the program, the
    reconciler's instance map, [ReactCurrentOwner.current], and the two
    module-level [let] slots of lines 55-56. *)
Record world : Type := World {
  heap : gmap loc object;
  ReactInstanceMap : gmap loc value;
  ReactCurrentOwner_current : option owner;
  injectedFindNode : value;
  injectedFindRootNodeID : value
}.

(** ** A state, trace and exception monad *)

Record ran (A : Type) : Type := Ran {
  final : world;
  trace : list event;
  outcome : result A
}.

Arguments Ran {A} final trace outcome.
Arguments final {A} r.
Arguments trace {A} r.
Arguments outcome {A} r.

Definition M (A : Type) : Type := world -> ran A.

Definition ret {A} (a : A) : M A := fun w => Ran w [] (Return a).

Definition throw {A} (e : exn) : M A := fun w => Ran w [] (Throw e).

Definition bind {A B} (m : M A) (k : A -> M B) : M B :=
  fun w =>
    let r := m w in
    match outcome r with
    | Return a =>
        let r' := k a (final r) in
        Ran (final r') (trace r ++ trace r') (outcome r')
    | Throw e => Ran (final r) (trace r) (Throw e)
    end.

Definition read {A} (f : world -> A) : M A := fun w => Ran w [] (Return (f w)).

Definition write (f : world -> world) : M unit := fun w => Ran (f w) [] (Return tt).

Definition emit (e : event) : M unit := fun w => Ran w [e] (Return tt).

Declare Scope js_scope.
Delimit Scope js_scope with js.
Notation "'let*' x ':=' m 'in' k" := (bind m (fun x => k))
  (at level 10, x name, m at level 100, k at level 200) : js_scope.
Notation "m '>>' k" := (bind m (fun _ => k))
  (at level 100, k at level 200, right associativity) : js_scope.
Local Open Scope js_scope.

(** ** The module *)

Definition warnedAboutRefsInRender_key : string := "_warnedAboutRefsInRender".

Definition refs_in_render_format : string :=
  "%s is accessing findNodeHandle inside its render(). " +:+
  "render() should be a pure function of props and state. It should " +:+
  "never access something that requires stale data from the previous " +:+
  "render, such as refs. Move this logic to componentDidMount and " +:+
  "componentDidUpdate instead.".

Definition not_a_component_format : string :=
  "findNodeHandle(...): Argument is not a component " +:+
  "(type: %s, keys: %s)".

Definition unmounted_format : string :=
  "findNodeHandle(...): Unable to find node handle for unmounted " +:+
  "component.".

Definition set_heap (h : gmap loc object) (w : world) : world :=
  {| heap := h;
     ReactInstanceMap := ReactInstanceMap w;
     ReactCurrentOwner_current := ReactCurrentOwner_current w;
     injectedFindNode := injectedFindNode w;
     injectedFindRootNodeID := injectedFindRootNodeID w |}.

(** [findNodeHandle.injection.injectFindNode(findNode)] *)
Definition injectFindNode (findNode : value) (w : world) : world :=
  {| heap := heap w;
     ReactInstanceMap := ReactInstanceMap w;
     ReactCurrentOwner_current := ReactCurrentOwner_current w;
     injectedFindNode := findNode;
     injectedFindRootNodeID := injectedFindRootNodeID w |}.

(** [findNodeHandle.injection.injectFindRootNodeID(findRootNodeID)] *)
Definition injectFindRootNodeID (findRootNodeID : value) (w : world) : world :=
  {| heap := heap w;
     ReactInstanceMap := ReactInstanceMap w;
     ReactCurrentOwner_current := ReactCurrentOwner_current w;
     injectedFindNode := injectedFindNode w;
     injectedFindRootNodeID := findRootNodeID |}.

(** The renderer sets the current owner around a render. *)
Definition set_current_owner (o : option owner) (w : world) : world :=
  {| heap := heap w;
     ReactInstanceMap := ReactInstanceMap w;
     ReactCurrentOwner_current := o;
     injectedFindNode := injectedFindNode w;
     injectedFindRootNodeID := injectedFindRootNodeID w |}.

(** The module state as it is when the file has just been loaded: both
    [let] slots are undefined. *)
Definition module_loaded (h : gmap loc object) (m : gmap loc value)
    (o : option owner) : world :=
  {| heap := h;
     ReactInstanceMap := m;
     ReactCurrentOwner_current := o;
     injectedFindNode := VUndefined;
     injectedFindRootNodeID := VUndefined |}.

(** Modelled from the spec: [ReactInstanceMap] is required by the module
    but defined in the reconciler.  The glossary calls an internal instance
    "a composite component's associated record in the reconciler's internal
    instance map"; [ReactInstanceMap.get(key)] is the record kept for the
    object [key], and [undefined] when there is none or [key] is a
    primitive. *)
Definition ReactInstanceMap_get (w : world) (key : value) : value :=
  match key with
  | VObject l | VFunction l => default VUndefined (ReactInstanceMap w !! l)
  | _ => VUndefined
  end.

(** [isFiber ? owner.stateNode : owner], where [isFiber] is
    [typeof owner.tag === 'number']: the value whose
    [_warnedAboutRefsInRender] lines 67-69 read and lines 81-85 write. *)
Definition flag_holder (o : owner) : value :=
  match o with
  | Fiber _ stateNode => stateNode
  | ReactInstance self => VObject self
  end.

(** Where that flag lives, when the holder is an object. *)
Definition flag_address (o : owner) : option loc := address_of (flag_holder o).

(** What [_warnedAboutRefsInRender] reads as on an owner's flag holder in a
    state: [undefined] when the holder is not an object. *)
Definition warnedAboutRefsInRender (w : world) (o : owner) : value :=
  get_prop (heap w) (flag_holder o) warnedAboutRefsInRender_key.

(** [v.k]: a type error on [null] and [undefined]. *)
Definition read_prop (v : value) (k : string) : M value :=
  if is_nullish v then throw (TypeError (CannotReadProperty v k))
  else read (fun w => get_prop (heap w) v k).

(** [v.k = x] in strict mode (line 13): a type error on [null], on
    [undefined] and on a primitive, a write on an object. *)
Definition write_prop (v : value) (k : string) (x : value) : M unit :=
  match address_of v with
  | Some l => write (fun w => set_heap (heap_set (heap w) l k x) w)
  | None => throw (TypeError (CannotSetProperty v k))
  end.

(** [fbjs/lib/warning], a dependency of the module: the message is printed
    when the condition is falsy.  The event keeps the owner the message is
    about. *)
Definition warning (o : owner) (condition : value) (format : string)
    (args : list arg) : M unit :=
  if truthy condition then ret tt else emit (EvWarning o format args).

(** [fbjs/lib/invariant], a dependency of the module: throws an error
    built from the format and its arguments when the condition is false. *)
Definition invariant (condition : bool) (format : string) (args : list arg)
  : M unit :=
  if condition then ret tt else throw (InvariantViolation format args).

Section FindNodeHandle.

(** The build flag. *)
Variable __DEV__ : bool.

(** [getComponentName] is required from the shared renderer code. *)
Variable getComponentName : owner -> value.

(** What calling the function object at an address does: the behaviour of
    the host's functions, among them the strategies a renderer injects.
    They may read the state; they do not write the state of this module. *)
Variable host_call : world -> loc -> value -> result value.

(** [callee(argument)] *)
Definition call_value (w : world) (callee argument : value) : result value :=
  match callee with
  | VFunction l => host_call w l argument
  | _ => Throw (TypeError (NotAFunction callee))
  end.

Definition invoke (s : slot) (callee argument : value) : M value :=
  emit (EvInvoke s callee argument) >>
  fun w => Ran w [] (call_value w callee argument).

(** Lines 62-87. *)
Definition warn_refs_in_render : M unit :=
  if __DEV__ then
    let* owner := read ReactCurrentOwner_current in
    match owner with
    | None => ret tt
    | Some owner =>
        let* warned :=
          read_prop (flag_holder owner) warnedAboutRefsInRender_key in
        warning owner warned refs_in_render_format
          [AValue (js_or (getComponentName owner) (VString "A component"))] >>
        write_prop (flag_holder owner) warnedAboutRefsInRender_key (VBool true)
    end
  else ret tt.

(** Whether the development check runs to its end: it is compiled out, or
    there is no owner, or the owner's flag holder is an object. *)
Definition check_completes (w : world) : bool :=
  negb __DEV__ ||
  match ReactCurrentOwner_current w with
  | None => true
  | Some o => bool_decide (is_Some (address_of (flag_holder o)))
  end.

(** The condition of the first [invariant], lines 110-114. *)
Definition is_component (h : gmap loc object) (component : value) : bool :=
  (String.eqb (typeof component) "object" &&
     (has_prop h component "_rootNodeID" || has_prop h component "_nativeTag"))
  || (negb (is_nullish (get_prop h component "render")) &&
      String.eqb (typeof (get_prop h component "render")) "function").

(** Lines 88-126: what the function does once the development check is
    over. *)
Definition resolve (componentOrHandle : value) : M value :=
  if is_nullish componentOrHandle then ret VNull
  else if String.eqb (typeof componentOrHandle) "number" then
    ret componentOrHandle
  else
    let component := componentOrHandle in
    emit (EvInstanceMapGet component) >>
    let* internalInstance := read (fun w => ReactInstanceMap_get w component) in
    if truthy internalInstance then
      let* findNode := read injectedFindNode in
      invoke FindNode findNode internalInstance
    else
      let* findRootNodeID := read injectedFindRootNodeID in
      let* rootNodeID := invoke FindRootNodeID findRootNodeID component in
      if truthy rootNodeID then ret rootNodeID
      else
        let* h := read heap in
        invariant (is_component h component) not_a_component_format
          [AValue (VString (typeof component)); AKeys (keys h component)] >>
        invariant false unmounted_format [] >>
        ret VUndefined.

(** Lines 61-127. *)
Definition findNodeHandle (componentOrHandle : value) : M value :=
  warn_refs_in_render >>
  resolve componentOrHandle.

(** The state in which line 88 is reached, and what the development
    check has logged by then. *)
Definition entry_world (w : world) : world := final (warn_refs_in_render w).

Definition dev_trace (w : world) : list event := trace (warn_refs_in_render w).

(** *** Sequences of calls *)

(** What the surrounding program does with the module between two calls:
    the renderer moves the current owner, a reconciler injects a strategy,
    somebody calls [findNodeHandle] (and may catch what it throws). *)
Inductive action : Type :=
| SetCurrentOwner (o : option owner)
| InjectFindNode (findNode : value)
| InjectFindRootNodeID (findRootNodeID : value)
| CallFindNodeHandle (componentOrHandle : value).

Definition step (a : action) (w : world) : world * list event :=
  match a with
  | SetCurrentOwner o => (set_current_owner o w, [])
  | InjectFindNode f => (injectFindNode f w, [])
  | InjectFindRootNodeID f => (injectFindRootNodeID f w, [])
  | CallFindNodeHandle x =>
      let r := findNodeHandle x w in (final r, trace r)
  end.

Fixpoint run (acts : list action) (w : world) : world * list event :=
  match acts with
  | [] => (w, [])
  | a :: acts' =>
      let '(w1, t1) := step a w in
      let '(w2, t2) := run acts' w1 in
      (w2, t1 ++ t2)
  end.

End FindNodeHandle.

(** ** Reading a trace *)

Definition slot_value (s : slot) (w : world) : value :=
  match s with
  | FindNode => injectedFindNode w
  | FindRootNodeID => injectedFindRootNodeID w
  end.

Definition is_warning (e : event) : bool :=
  match e with
  | EvWarning _ _ _ => true
  | _ => false
  end.

Definition is_lookup (e : event) : bool :=
  match e with
  | EvInstanceMapGet _ => true
  | _ => false
  end.

Definition is_invoke (e : event) : bool :=
  match e with
  | EvInvoke _ _ _ => true
  | _ => false
  end.

Definition invokes (s : slot) (e : event) : bool :=
  match e with
  | EvInvoke s' _ _ => bool_decide (s' = s)
  | _ => false
  end.

Definition warns (o : owner) (e : event) : bool :=
  match e with
  | EvWarning o' _ _ => bool_decide (o' = o)
  | _ => false
  end.

(** How many times a trace warns about an owner. *)
Definition warnings_about (o : owner) (t : list event) : nat :=
  length (List.filter (warns o) t).

(** Whether the flag an owner's warning is keyed on is set. *)
Definition warned (w : world) (o : owner) : bool :=
  truthy (warnedAboutRefsInRender w o).


(** The four outcomes the specification lists for a call. *)
Inductive outcome_kind : Type :=
| ReturnsNull
| ReturnsInput
| ReturnsStrategyValue
| Throws.

Definition has_outcome (__DEV__ : bool) (getComponentName : owner -> value)
    (host_call : world -> loc -> value -> result value)
    (x : value) (w : world) (k : outcome_kind) : Prop :=
  let r := findNodeHandle __DEV__ getComponentName host_call x w in
  match k with
  | ReturnsNull => is_nullish x = true /\ outcome r = Return VNull
  | ReturnsInput => typeof x = "number" /\ outcome r = Return x
  | ReturnsStrategyValue =>
      is_nullish x = false /\ typeof x <> "number" /\
      exists (s : slot) (f : loc) (argument v : value),
        slot_value s w = VFunction f /\
        EvInvoke s (VFunction f) argument ∈ trace r /\
        host_call (entry_world __DEV__ getComponentName w) f argument = Return v /\
        outcome r = Return v
  | Throws => exists e, outcome r = Throw e
  end.

(** What the [else] branch of line 103 yields once the strategy has
    answered. *)
Definition after_findRootNodeID (w : world) (component : value)
    (answer : result value) : result value :=
  match answer with
  | Throw e => Throw e
  | Return rootNodeID =>
      if truthy rootNodeID then Return rootNodeID
      else if is_component (heap w) component then
        Throw (InvariantViolation unmounted_format [])
      else
        Throw (InvariantViolation not_a_component_format
                 [AValue (VString (typeof component));
                  AKeys (keys (heap w) component)])
  end.

(** ** Concrete states used to exercise the statements *)

Definition two : number := S754_finite false 1 1.
Definition seven : number := S754_finite false 7 0.

(** A host with three functions: address 1 answers every call with the
    handle 7, address 2 answers with [+0], any other address throws. *)
Definition sample_host (w : world) (l : loc) (v : value) : result value :=
  match l with
  | 1%positive => Return (VNumber seven)
  | 2%positive => Return (VNumber (S754_zero false))
  | _ => Throw (HostError (VString "boom"))
  end.

Definition sample_name (o : owner) : value := VString "Foo".

(** A class-component fiber whose instance lives at address 10. *)
Definition sample_owner : owner := Fiber two (VObject 10%positive).

(** The instance at 10 has a [render] method on its prototype; the object at
    11 is a native component with a [_nativeTag]; 12 is a plain object. *)
Definition sample_heap : gmap loc object :=
  {[ 10%positive := {| own := [("props", VNull)];
                       inherited := {[ "render" := VFunction 20%positive ]} |};
     11%positive := {| own := [("_nativeTag", VNumber seven)]; inherited := ∅ |};
     12%positive := {| own := [("a", VNull)]; inherited := ∅ |} ]}.

(** Only the instance at 10 is mounted. *)
Definition sample_world : world :=
  {| heap := sample_heap;
     ReactInstanceMap := {[ 10%positive := VObject 30%positive ]};
     ReactCurrentOwner_current := Some sample_owner;
     injectedFindNode := VFunction 1%positive;
     injectedFindRootNodeID := VFunction 2%positive |}.

(** The same state before any renderer has injected a strategy. *)
Definition fresh_world : world :=
  module_loaded sample_heap {[ 10%positive := VObject 30%positive ]}
    (Some sample_owner).

(** The same state with a [findRootNodeID] that answers with the handle 7. *)
Definition resolving_world : world :=
  injectFindRootNodeID (VFunction 1%positive) sample_world.

(** ** Further readings of a state and a trace *)

(** Whether the object at an address has its [_warnedAboutRefsInRender]
    set. *)
Definition flagged (w : world) (l : loc) : bool :=
  truthy (obj_get (heap_obj (heap w) l) warnedAboutRefsInRender_key).

(** A warning about any owner whose flag lives on the object at [l]. *)
Definition warns_on (l : loc) (e : event) : bool :=
  match e with
  | EvWarning o _ _ => bool_decide (address_of (flag_holder o) = Some l)
  | _ => false
  end.

Definition warnings_on (l : loc) (t : list event) : nat :=
  length (List.filter (warns_on l) t).


(** The work-in-progress twin of [sample_owner]: another fiber with the
    same instance. *)
Definition sample_alternate : owner := Fiber seven (VObject 10%positive).

(** The fiber of a functional component: it has no instance. *)
Definition functional_owner : owner := Fiber two VNull.

(** The sample state during the render of that functional component. *)
Definition functional_world : world :=
  set_current_owner (Some functional_owner) sample_world.

(** A fiber whose [stateNode] is a number, as the text instances of the
    native renderer are. *)
Definition text_owner : owner := Fiber two (VNumber seven).

Definition text_world : world :=
  set_current_owner (Some text_owner) sample_world.

(** A state without a current owner. *)
Definition ownerless_world : world := set_current_owner None sample_world.

(** The sample state with a [findNode] that answers [+0]. *)
Definition zero_world : world :=
  injectFindNode (VFunction 2%positive) sample_world.

(** The sample state after one development call: the instance at 10 is
    flagged. *)
Definition warned_world : world :=
  final (findNodeHandle true sample_name sample_host VNull sample_world).

(** The sample state during the render of a stack instance that is the
    plain object at 12. *)
Definition stack_world : world :=
  set_current_owner (Some (ReactInstance 12%positive)) sample_world.

(** ** Properties *)

(** *** Objects and the heap *)

Lemma assoc_set_same k v ps : assoc k (assoc_set k v ps) = Some v.
Proof.
  induction ps as [|[k' v'] ps IH]; simpl.
  - by rewrite decide_True.
  - destruct (decide (k = k')) as [->|Hne]; simpl.
    + by rewrite decide_True.
    + by rewrite decide_False.
Qed.

Lemma assoc_set_other k k' v ps :
  k <> k' -> assoc k' (assoc_set k v ps) = assoc k' ps.
Proof.
  intros Hne. induction ps as [|[k0 v0] ps IH]; simpl.
  - by rewrite decide_False.
  - destruct (decide (k = k0)) as [->|Hk]; simpl.
    + by rewrite !decide_False.
    + destruct (decide (k' = k0)); [done | apply IH].
Qed.

Lemma obj_get_set_same o k v : obj_get (obj_set o k v) k = v.
Proof. unfold obj_get, obj_set; simpl. by rewrite assoc_set_same. Qed.

Lemma obj_get_set_other o k k' v :
  k <> k' -> obj_get (obj_set o k v) k' = obj_get o k'.
Proof.
  intros Hne. unfold obj_get, obj_set; simpl. by rewrite assoc_set_other.
Qed.

Lemma obj_has_set_other o k k' v :
  k <> k' -> obj_has (obj_set o k v) k' = obj_has o k'.
Proof.
  intros Hne. unfold obj_has, obj_set; simpl. by rewrite assoc_set_other.
Qed.

Lemma heap_obj_set_same (h : gmap loc object) l k v :
  heap_obj (heap_set h l k v) l = obj_set (heap_obj h l) k v.
Proof. unfold heap_obj at 1, heap_set. by rewrite lookup_insert_eq. Qed.

Lemma heap_obj_set_other (h : gmap loc object) l l' k v :
  l <> l' -> heap_obj (heap_set h l k v) l' = heap_obj h l'.
Proof.
  intros Hne. unfold heap_obj at 1, heap_set.
  by rewrite lookup_insert_ne.
Qed.

(** Setting a flag to [true] never clears a flag, at any address. *)
Lemma flag_stays_set (h : gmap loc object) l l' k :
  truthy (obj_get (heap_obj h l') k) = true ->
  truthy (obj_get (heap_obj (heap_set h l k (VBool true)) l') k) = true.
Proof.
  intros Hset. destruct (decide (l = l')) as [->|Hne].
  - by rewrite heap_obj_set_same, obj_get_set_same.
  - by rewrite heap_obj_set_other.
Qed.

(** A write to one key is invisible to reads of another key. *)
Lemma get_prop_heap_set (h : gmap loc object) l k k' v x :
  k <> k' -> get_prop (heap_set h l k v) x k' = get_prop h x k'.
Proof.
  intros Hne. destruct x as [| | | | | |l'|l']; simpl; try done;
    (destruct (decide (l = l')) as [->|Hl];
     [by rewrite heap_obj_set_same, obj_get_set_other
     |by rewrite heap_obj_set_other]).
Qed.

Lemma has_prop_heap_set (h : gmap loc object) l k k' v x :
  k <> k' -> has_prop (heap_set h l k v) x k' = has_prop h x k'.
Proof.
  intros Hne. destruct x as [| | | | | |l'|l']; simpl; try done;
    (destruct (decide (l = l')) as [->|Hl];
     [by rewrite heap_obj_set_same, obj_has_set_other
     |by rewrite heap_obj_set_other]).
Qed.

Lemma is_component_heap_set (h : gmap loc object) l v x :
  is_component (heap_set h l warnedAboutRefsInRender_key v) x = is_component h x.
Proof.
  unfold is_component.
  by rewrite !has_prop_heap_set, !get_prop_heap_set.
Qed.

(** The first [invariant] passes exactly for a native component (an object
    with a [_rootNodeID] or a [_nativeTag]) or a composite one (a value with
    a [render] function). *)
Lemma is_component_spec (h : gmap loc object) x :
  is_component h x = true <->
  (typeof x = "object" /\
     (has_prop h x "_rootNodeID" = true \/ has_prop h x "_nativeTag" = true))
  \/ typeof (get_prop h x "render") = "function".
Proof.
  unfold is_component.
  rewrite orb_true_iff, !andb_true_iff, orb_true_iff, !String.eqb_eq.
  split.
  - intros [H|[_ H]]; [by left | by right].
  - intros [H|H]; [by left | right]. split; [|done].
    by destruct (get_prop h x "render").
Qed.

Lemma assoc_set_twice k v ps :
  assoc_set k v (assoc_set k v ps) = assoc_set k v ps.
Proof.
  induction ps as [|[k' v'] ps IH]; simpl.
  - by rewrite decide_True.
  - destruct (decide (k = k')) as [->|Hne]; simpl.
    + by rewrite decide_True.
    + by rewrite decide_False, IH.
Qed.

Lemma assoc_set_keys k v ps :
  (assoc_set k v ps).*1 =
    match assoc k ps with
    | Some _ => ps.*1
    | None => ps.*1 ++ [k]
    end.
Proof.
  induction ps as [|[k' v'] ps IH]; csimpl; [done|].
  destruct (decide (k = k')) as [->|Hne]; csimpl; [done|].
  rewrite IH. by destruct (assoc k ps).
Qed.

Lemma heap_set_twice (h : gmap loc object) l k v :
  heap_set (heap_set h l k v) l k v = heap_set h l k v.
Proof.
  unfold heap_set at 1. rewrite heap_obj_set_same.
  unfold heap_set. rewrite insert_insert_eq. f_equal.
  unfold obj_set. simpl. by rewrite assoc_set_twice.
Qed.

Lemma keys_heap_set_other (h : gmap loc object) l k v x :
  address_of x <> Some l -> keys (heap_set h l k v) x = keys h x.
Proof.
  intros Hx. destruct x as [| | | | | |l'|l']; simpl in *; try done;
    (rewrite heap_obj_set_other; [done | congruence]).
Qed.

Section Properties.

Variable __DEV__ : bool.
Variable getComponentName : owner -> value.
Variable host_call : world -> loc -> value -> result value.

Local Abbreviation findNodeHandle' :=
  (findNodeHandle __DEV__ getComponentName host_call).
Local Abbreviation warn_refs_in_render' :=
  (warn_refs_in_render __DEV__ getComponentName).
Local Abbreviation entry_world' := (entry_world __DEV__ getComponentName).
Local Abbreviation dev_trace' := (dev_trace __DEV__ getComponentName).
Local Abbreviation check_completes' := (check_completes __DEV__).
Local Abbreviation resolve' := (resolve host_call).
Local Abbreviation call_value' := (call_value host_call).
Local Abbreviation run' := (run __DEV__ getComponentName host_call).
Local Abbreviation step' := (step __DEV__ getComponentName host_call).

(** *** The development check (lines 62-87) *)

(** The warning the check prints about an owner. *)
Local Abbreviation warning_about o :=
  (EvWarning o refs_in_render_format
     [AValue (js_or (getComponentName o) (VString "A component"))]).

Lemma warn_refs_in_render_production w :
  __DEV__ = false -> warn_refs_in_render' w = Ran w [] (Return tt).
Proof. intros Hdev. unfold warn_refs_in_render. by rewrite Hdev. Qed.

Lemma warn_refs_in_render_no_owner w :
  ReactCurrentOwner_current w = None ->
  warn_refs_in_render' w = Ran w [] (Return tt).
Proof.
  intros Hnone. unfold warn_refs_in_render.
  destruct __DEV__; [|done]. unfold bind, read; simpl. by rewrite Hnone.
Qed.

(** The holder is an object: the flag is read, the warning printed if it
    was unset, the flag written. *)
Lemma warn_refs_in_render_object w o l :
  __DEV__ = true -> ReactCurrentOwner_current w = Some o ->
  address_of (flag_holder o) = Some l ->
  warn_refs_in_render' w =
    Ran (set_heap (heap_set (heap w) l warnedAboutRefsInRender_key
                     (VBool true)) w)
        (if warned w o then [] else [warning_about o])
        (Return tt).
Proof.
  intros Hdev Ho Hl. unfold warn_refs_in_render, warned, warnedAboutRefsInRender.
  rewrite Hdev. unfold bind at 1, read at 1. simpl. rewrite Ho. simpl.
  unfold read_prop, write_prop. rewrite Hl.
  assert (is_nullish (flag_holder o) = false) as ->
    by (by destruct (flag_holder o)).
  unfold bind, read, warning, write; simpl.
  by destruct (truthy (get_prop (heap w) (flag_holder o)
                         warnedAboutRefsInRender_key)).
Qed.

(** The holder is [null] or [undefined]: line 68 throws before anything is
    printed or written. *)
Lemma warn_refs_in_render_nullish w o :
  __DEV__ = true -> ReactCurrentOwner_current w = Some o ->
  is_nullish (flag_holder o) = true ->
  warn_refs_in_render' w =
    Ran w []
      (Throw (TypeError (CannotReadProperty (flag_holder o)
                           warnedAboutRefsInRender_key))).
Proof.
  intros Hdev Ho Hn. unfold warn_refs_in_render.
  rewrite Hdev. unfold bind at 1, read at 1. simpl. rewrite Ho. simpl.
  unfold read_prop. rewrite Hn. done.
Qed.

(** The holder is a primitive: the flag reads [undefined], the warning is
    printed, and the write of line 82 throws. *)
Lemma warn_refs_in_render_primitive w o :
  __DEV__ = true -> ReactCurrentOwner_current w = Some o ->
  is_primitive (flag_holder o) = true ->
  warn_refs_in_render' w =
    Ran w [warning_about o]
      (Throw (TypeError (CannotSetProperty (flag_holder o)
                           warnedAboutRefsInRender_key))).
Proof.
  intros Hdev Ho Hp. unfold warn_refs_in_render.
  rewrite Hdev. unfold bind at 1, read at 1. simpl. rewrite Ho. simpl.
  unfold read_prop, write_prop.
  by destruct (flag_holder o).
Qed.

(** The five ways the check can go. *)
Lemma check_cases w :
  __DEV__ = false \/
  (__DEV__ = true /\ ReactCurrentOwner_current w = None) \/
  (exists o l, __DEV__ = true /\ ReactCurrentOwner_current w = Some o /\
               address_of (flag_holder o) = Some l) \/
  (exists o, __DEV__ = true /\ ReactCurrentOwner_current w = Some o /\
             is_nullish (flag_holder o) = true) \/
  (exists o, __DEV__ = true /\ ReactCurrentOwner_current w = Some o /\
             is_primitive (flag_holder o) = true).
Proof.
  destruct (Bool.bool_dec __DEV__ true) as [Hdev|Hdev%Bool.not_true_is_false];
    [|by left].
  right. destruct (ReactCurrentOwner_current w) as [o|]; [|by left].
  right. destruct (flag_holder o) eqn:Hh.
  all: first [ by left; eexists o, _; rewrite Hh
             | by right; left; exists o; rewrite Hh
             | by right; right; exists o; rewrite Hh ].
Qed.

Lemma warned_is_object w o :
  warned w o = true -> exists l, address_of (flag_holder o) = Some l.
Proof.
  unfold warned, warnedAboutRefsInRender.
  destruct (flag_holder o); simpl; try done; eauto.
Qed.

Lemma warned_flagged w o l :
  address_of (flag_holder o) = Some l -> warned w o = flagged w l.
Proof.
  unfold warned, warnedAboutRefsInRender, flagged.
  by destruct (flag_holder o); simpl; try done; intros [= ->].
Qed.

Lemma check_completes_returns w :
  check_completes' w = true <-> outcome (warn_refs_in_render' w) = Return tt.
Proof.
  unfold check_completes.
  destruct (check_cases w)
    as [Hdev|[[Hdev Ho]|[(o&l&Hdev&Ho&Hl)|[(o&Hdev&Ho&Hn)|(o&Hdev&Ho&Hp)]]]].
  - rewrite warn_refs_in_render_production by done. by rewrite Hdev.
  - rewrite warn_refs_in_render_no_owner by done. by rewrite Hdev, Ho.
  - rewrite (warn_refs_in_render_object w o l) by done.
    by rewrite Hdev, Ho, Hl.
  - rewrite (warn_refs_in_render_nullish w o) by done.
    rewrite Hdev, Ho. simpl. by destruct (flag_holder o).
  - rewrite (warn_refs_in_render_primitive w o) by done.
    rewrite Hdev, Ho. simpl. by destruct (flag_holder o).
Qed.

(** A check that does not complete throws a type error and writes
    nothing. *)
Lemma check_blocked w :
  check_completes' w = false ->
  exists o why,
    __DEV__ = true /\ ReactCurrentOwner_current w = Some o /\
    address_of (flag_holder o) = None /\
    outcome (warn_refs_in_render' w) = Throw (TypeError why) /\
    entry_world' w = w.
Proof.
  unfold check_completes, entry_world.
  destruct (check_cases w)
    as [Hdev|[[Hdev Ho]|[(o&l&Hdev&Ho&Hl)|[(o&Hdev&Ho&Hn)|(o&Hdev&Ho&Hp)]]]].
  - by rewrite Hdev.
  - by rewrite Hdev, Ho.
  - by rewrite Hdev, Ho, Hl.
  - rewrite (warn_refs_in_render_nullish w o) by done. intros _.
    eexists o, _. repeat split; try done. by destruct (flag_holder o).
  - rewrite (warn_refs_in_render_primitive w o) by done. intros _.
    eexists o, _. repeat split; try done. by destruct (flag_holder o).
Qed.

Lemma entry_world_production w : __DEV__ = false -> entry_world' w = w.
Proof.
  intros Hdev. unfold entry_world.
  by rewrite warn_refs_in_render_production.
Qed.

Lemma entry_world_no_owner w :
  ReactCurrentOwner_current w = None -> entry_world' w = w.
Proof.
  intros Hnone. unfold entry_world.
  by rewrite warn_refs_in_render_no_owner.
Qed.

Lemma entry_world_object w o l :
  __DEV__ = true -> ReactCurrentOwner_current w = Some o ->
  address_of (flag_holder o) = Some l ->
  entry_world' w =
    set_heap (heap_set (heap w) l warnedAboutRefsInRender_key (VBool true)) w.
Proof.
  intros Hdev Ho Hl. unfold entry_world.
  by rewrite (warn_refs_in_render_object w o l).
Qed.

Lemma entry_world_not_object w o :
  ReactCurrentOwner_current w = Some o ->
  address_of (flag_holder o) = None -> entry_world' w = w.
Proof.
  intros Ho Hnone.
  destruct (check_cases w)
    as [Hdev|[[Hdev Ho']|[(o'&l&Hdev&Ho'&Hl)|[(o'&Hdev&Ho'&Hn)|(o'&Hdev&Ho'&Hp)]]]].
  - by apply entry_world_production.
  - by apply entry_world_no_owner.
  - congruence.
  - unfold entry_world. by rewrite (warn_refs_in_render_nullish w o').
  - unfold entry_world. by rewrite (warn_refs_in_render_primitive w o').
Qed.

Lemma dev_trace_production w : __DEV__ = false -> dev_trace' w = [].
Proof.
  intros Hdev. unfold dev_trace. by rewrite warn_refs_in_render_production.
Qed.

Lemma dev_trace_no_owner w :
  ReactCurrentOwner_current w = None -> dev_trace' w = [].
Proof.
  intros Hnone. unfold dev_trace. by rewrite warn_refs_in_render_no_owner.
Qed.

(** With an owner whose holder is not [null] or [undefined], the check
    warns exactly when the flag reads falsy. *)
Lemma dev_trace_owner w o :
  __DEV__ = true -> ReactCurrentOwner_current w = Some o ->
  is_nullish (flag_holder o) = false ->
  dev_trace' w = if warned w o then [] else [warning_about o].
Proof.
  intros Hdev Ho Hn. unfold dev_trace.
  destruct (address_of (flag_holder o)) as [l|] eqn:Hl.
  - by rewrite (warn_refs_in_render_object w o l).
  - assert (is_primitive (flag_holder o) = true) as Hp
      by (by destruct (flag_holder o)).
    rewrite (warn_refs_in_render_primitive w o) by done.
    unfold warned, warnedAboutRefsInRender.
    by destruct (flag_holder o).
Qed.

Lemma dev_trace_nullish w o :
  ReactCurrentOwner_current w = Some o ->
  is_nullish (flag_holder o) = true -> dev_trace' w = [].
Proof.
  intros Ho Hn.
  destruct (Bool.bool_dec __DEV__ true) as [Hdev|Hdev%Bool.not_true_is_false].
  - unfold dev_trace. by rewrite (warn_refs_in_render_nullish w o).
  - by apply dev_trace_production.
Qed.

(** The check logs warnings and nothing else. *)
Lemma dev_trace_warnings w : Forall (fun e => is_warning e = true) (dev_trace' w).
Proof.
  unfold dev_trace.
  destruct (check_cases w)
    as [Hdev|[[Hdev Ho]|[(o&l&Hdev&Ho&Hl)|[(o&Hdev&Ho&Hn)|(o&Hdev&Ho&Hp)]]]].
  - rewrite warn_refs_in_render_production by done. constructor.
  - rewrite warn_refs_in_render_no_owner by done. constructor.
  - rewrite (warn_refs_in_render_object w o l) by done. simpl.
    destruct (warned w o); repeat constructor.
  - rewrite (warn_refs_in_render_nullish w o) by done. constructor.
  - rewrite (warn_refs_in_render_primitive w o) by done. repeat constructor.
Qed.

(** The check writes the heap and nothing else. *)
Lemma entry_world_frame w :
  ReactInstanceMap (entry_world' w) = ReactInstanceMap w /\
  ReactCurrentOwner_current (entry_world' w) = ReactCurrentOwner_current w /\
  injectedFindNode (entry_world' w) = injectedFindNode w /\
  injectedFindRootNodeID (entry_world' w) = injectedFindRootNodeID w.
Proof.
  destruct (ReactCurrentOwner_current w) as [o|] eqn:Ho.
  - destruct (address_of (flag_holder o)) as [l|] eqn:Hl.
    + destruct (Bool.bool_dec __DEV__ true)
        as [Hdev|Hdev%Bool.not_true_is_false].
      * by rewrite (entry_world_object w o l).
      * by rewrite entry_world_production.
    + by rewrite (entry_world_not_object w o).
  - by rewrite entry_world_no_owner.
Qed.

Lemma entry_world_get w x :
  ReactInstanceMap_get (entry_world' w) x = ReactInstanceMap_get w x.
Proof.
  unfold ReactInstanceMap_get.
  by destruct (entry_world_frame w) as (-> & _).
Qed.

(** *** The dispatch (lines 88-126) *)

Lemma resolve_nullish x w :
  is_nullish x = true -> resolve' x w = Ran w [] (Return VNull).
Proof. intros Hx. unfold resolve. by rewrite Hx. Qed.

Lemma resolve_number n w : resolve' (VNumber n) w = Ran w [] (Return (VNumber n)).
Proof. done. Qed.

Lemma typeof_number x : typeof x = "number" -> exists n, x = VNumber n.
Proof. destruct x; try discriminate; eauto. Qed.

Lemma resolve_mounted x w :
  is_nullish x = false -> typeof x <> "number" ->
  truthy (ReactInstanceMap_get w x) = true ->
  resolve' x w =
    Ran w [EvInstanceMapGet x;
           EvInvoke FindNode (injectedFindNode w) (ReactInstanceMap_get w x)]
        (call_value' w (injectedFindNode w) (ReactInstanceMap_get w x)).
Proof.
  intros Hnull Hnum Hinst. unfold resolve. rewrite Hnull.
  destruct (String.eqb_spec (typeof x) "number") as [|_]; [done|].
  unfold bind, emit, read, invoke; simpl. rewrite Hinst. simpl.
  by destruct (call_value' w (injectedFindNode w) (ReactInstanceMap_get w x)).
Qed.

Lemma resolve_unmounted x w :
  is_nullish x = false -> typeof x <> "number" ->
  truthy (ReactInstanceMap_get w x) = false ->
  resolve' x w =
    Ran w [EvInstanceMapGet x;
           EvInvoke FindRootNodeID (injectedFindRootNodeID w) x]
        (after_findRootNodeID w x
           (call_value' w (injectedFindRootNodeID w) x)).
Proof.
  intros Hnull Hnum Hinst. unfold resolve. rewrite Hnull.
  destruct (String.eqb_spec (typeof x) "number") as [|_]; [done|].
  unfold bind, emit, read, invoke; simpl. rewrite Hinst. simpl.
  destruct (call_value' w (injectedFindRootNodeID w) x) as [v|e]; simpl; [|done].
  destruct (truthy v); simpl; [done|].
  unfold invariant. by destruct (is_component (heap w) x).
Qed.

(** The dispatch writes nothing. *)
Lemma resolve_final x w : final (resolve' x w) = w.
Proof.
  destruct (is_nullish x) eqn:Hnull.
  - by rewrite resolve_nullish.
  - destruct (decide (typeof x = "number")) as [Hnum|Hnum].
    + destruct (typeof_number x Hnum) as [n ->]. done.
    + destruct (truthy (ReactInstanceMap_get w x)) eqn:Hinst.
      * by rewrite resolve_mounted.
      * by rewrite resolve_unmounted.
Qed.

(** *** A whole call *)

(** When the check completes, the call is the dispatch run in the state the
    check left. *)
Lemma findNodeHandle_runs x w :
  check_completes' w = true ->
  findNodeHandle' x w =
    let r := resolve' x (entry_world' w) in
    Ran (final r) (dev_trace' w ++ trace r) (outcome r).
Proof.
  intros Hok%check_completes_returns.
  unfold findNodeHandle, bind at 1, entry_world, dev_trace.
  by rewrite Hok.
Qed.

(** When it does not, the call ends there. *)
Lemma findNodeHandle_stops x w e :
  outcome (warn_refs_in_render' w) = Throw e ->
  findNodeHandle' x w = Ran (entry_world' w) (dev_trace' w) (Throw e).
Proof.
  intros Hthrow. unfold findNodeHandle, bind at 1, entry_world, dev_trace.
  by rewrite Hthrow.
Qed.

Lemma findNodeHandle_blocked x w :
  check_completes' w = false ->
  exists why, findNodeHandle' x w = Ran w (dev_trace' w) (Throw (TypeError why)).
Proof.
  intros (o & why & _ & _ & _ & Hthrow & Hsame)%check_blocked.
  exists why. rewrite (findNodeHandle_stops x w _ Hthrow). by rewrite Hsame.
Qed.

(** With a fiber owner that has no instance, every call in development
    mode stops at line 68. *)
Lemma findNodeHandle_without_instance x w tag stateNode :
  __DEV__ = true ->
  ReactCurrentOwner_current w = Some (Fiber tag stateNode) ->
  is_nullish stateNode = true ->
  findNodeHandle' x w =
    Ran w []
      (Throw (TypeError (CannotReadProperty stateNode
                           warnedAboutRefsInRender_key))).
Proof.
  intros Hdev Ho Hn.
  pose proof (warn_refs_in_render_nullish w _ Hdev Ho Hn) as Hwarn.
  rewrite (findNodeHandle_stops x w
             (TypeError (CannotReadProperty stateNode
                           warnedAboutRefsInRender_key)))
    by (by rewrite Hwarn).
  unfold entry_world, dev_trace. by rewrite Hwarn.
Qed.

Lemma findNodeHandle_final x w : final (findNodeHandle' x w) = entry_world' w.
Proof.
  destruct (outcome (warn_refs_in_render' w)) as [[]|e] eqn:Hout.
  - rewrite findNodeHandle_runs by (by apply check_completes_returns).
    simpl. apply resolve_final.
  - by rewrite (findNodeHandle_stops x w e).
Qed.

(** The outcome of a call on a component, read off the two branches. *)
Lemma findNodeHandle_mounted x w :
  check_completes' w = true ->
  is_nullish x = false -> typeof x <> "number" ->
  truthy (ReactInstanceMap_get w x) = true ->
  findNodeHandle' x w =
    Ran (entry_world' w)
        (dev_trace' w ++
         [EvInstanceMapGet x;
          EvInvoke FindNode (injectedFindNode w) (ReactInstanceMap_get w x)])
        (call_value' (entry_world' w) (injectedFindNode w)
           (ReactInstanceMap_get w x)).
Proof.
  intros Hok Hnull Hnum Hinst. rewrite findNodeHandle_runs by done.
  destruct (entry_world_frame w) as (_ & _ & Hfn & _).
  rewrite resolve_mounted by (by rewrite ?entry_world_get).
  simpl. by rewrite entry_world_get, Hfn.
Qed.

Lemma findNodeHandle_unmounted x w :
  check_completes' w = true ->
  is_nullish x = false -> typeof x <> "number" ->
  truthy (ReactInstanceMap_get w x) = false ->
  findNodeHandle' x w =
    Ran (entry_world' w)
        (dev_trace' w ++
         [EvInstanceMapGet x;
          EvInvoke FindRootNodeID (injectedFindRootNodeID w) x])
        (after_findRootNodeID (entry_world' w) x
           (call_value' (entry_world' w) (injectedFindRootNodeID w) x)).
Proof.
  intros Hok Hnull Hnum Hinst. rewrite findNodeHandle_runs by done.
  destruct (entry_world_frame w) as (_ & _ & _ & Hfr).
  rewrite resolve_unmounted by (by rewrite ?entry_world_get).
  simpl. by rewrite Hfr.
Qed.

Lemma after_findRootNodeID_return w x answer v :
  after_findRootNodeID w x answer = Return v ->
  answer = Return v /\ truthy v = true.
Proof.
  destruct answer as [v'|e]; simpl; [|done].
  destruct (truthy v') eqn:Hv; [by intros [= ->]|].
  by destruct (is_component (heap w) x).
Qed.

Lemma call_value_return w callee argument v :
  call_value' w callee argument = Return v ->
  exists f, callee = VFunction f /\ host_call w f argument = Return v.
Proof. destruct callee; try discriminate. simpl. eauto. Qed.

Lemma is_component_entry w x :
  is_component (heap (entry_world' w)) x = is_component (heap w) x.
Proof.
  destruct (ReactCurrentOwner_current w) as [o|] eqn:Ho.
  - destruct (address_of (flag_holder o)) as [l|] eqn:Hl.
    + destruct (Bool.bool_dec __DEV__ true)
        as [Hdev|Hdev%Bool.not_true_is_false].
      * rewrite (entry_world_object w o l Hdev Ho Hl). simpl.
        apply is_component_heap_set.
      * by rewrite entry_world_production.
    + by rewrite (entry_world_not_object w o).
  - by rewrite entry_world_no_owner.
Qed.

(** The owner, hence whether the check completes, is the same after a
    call. *)
Lemma check_completes_entry w :
  check_completes' (entry_world' w) = check_completes' w.
Proof.
  unfold check_completes.
  by destruct (entry_world_frame w) as (_ & -> & _).
Qed.

Lemma findNodeHandle_returned x w v :
  outcome (findNodeHandle' x w) = Return v -> check_completes' w = true.
Proof.
  intros Hret. destruct (check_completes' w) eqn:Hok; [done|].
  destruct (findNodeHandle_blocked x w Hok) as [why Hrun].
  by rewrite Hrun in Hret.
Qed.

(** *** The claims *)

(** C1.  For every input, a call has exactly one of four outcomes: it
    returns [null] (the input being [null] or [undefined]), it returns the
    input itself (the input being a number), it returns the value an
    injected strategy produced, or it throws. *)
Theorem findNodeHandle_four_outcomes x w :
  (exists k, has_outcome __DEV__ getComponentName host_call x w k) /\
  (forall k1 k2,
     has_outcome __DEV__ getComponentName host_call x w k1 ->
     has_outcome __DEV__ getComponentName host_call x w k2 -> k1 = k2).
Proof.
  split.
  - destruct (check_completes' w) eqn:Hok; cycle 1.
    { destruct (findNodeHandle_blocked x w Hok) as [why Hrun].
      exists Throws, (TypeError why). by rewrite Hrun. }
    destruct (is_nullish x) eqn:Hnull.
    { exists ReturnsNull. split; [done|].
      by rewrite findNodeHandle_runs, resolve_nullish. }
    destruct (decide (typeof x = "number")) as [Hnum|Hnum].
    { exists ReturnsInput. split; [done|].
      destruct (typeof_number x Hnum) as [n ->].
      by rewrite findNodeHandle_runs. }
    destruct (truthy (ReactInstanceMap_get w x)) eqn:Hinst.
    + destruct (call_value' (entry_world' w) (injectedFindNode w)
                  (ReactInstanceMap_get w x)) as [v|e] eqn:Hcall.
      * exists ReturnsStrategyValue. split; [done|]. split; [done|].
        destruct (call_value_return _ _ _ _ Hcall) as (f & Hf & Hhost).
        exists FindNode, f, (ReactInstanceMap_get w x), v.
        rewrite findNodeHandle_mounted by done. simpl.
        rewrite Hcall, <- Hf. repeat split; try done.
        rewrite elem_of_app. right. set_solver.
      * exists Throws, e. rewrite findNodeHandle_mounted by done.
        simpl. by rewrite Hcall.
    + destruct (after_findRootNodeID (entry_world' w) x
                  (call_value' (entry_world' w) (injectedFindRootNodeID w) x))
        as [v|e] eqn:Hafter.
      * exists ReturnsStrategyValue. split; [done|]. split; [done|].
        destruct (after_findRootNodeID_return _ _ _ _ Hafter) as [Hcall _].
        destruct (call_value_return _ _ _ _ Hcall) as (f & Hf & Hhost).
        exists FindRootNodeID, f, x, v.
        rewrite findNodeHandle_unmounted by done. simpl.
        rewrite Hafter, <- Hf. repeat split; try done.
        rewrite elem_of_app. right. set_solver.
      * exists Throws, e. rewrite findNodeHandle_unmounted by done.
        simpl. by rewrite Hafter.
  - intros k1 k2 H1 H2.
    destruct k1, k2; simpl in H1, H2; try done;
      repeat match goal with
        | H : _ /\ _ |- _ => destruct H
        | H : exists _, _ |- _ => destruct H
        end;
      try congruence;
      match goal with
      | H : typeof x = "number" |- _ =>
          destruct (typeof_number x H) as [? ->]; discriminate
      end.
Qed.

(** C2.  For every input that is neither null, undefined nor a number and
    whose lookup in the instance map yields a truthy internal instance, a
    call whose development check completes returns exactly what the
    injected [findNode] strategy yields on that internal instance.  In
    development mode with a fiber owner whose [stateNode] is [null] or
    [undefined] the call instead stops at line 68 with a type error: no
    lookup, no strategy. *)
Theorem findNodeHandle_delegates_to_findNode x w f :
  is_nullish x = false -> typeof x <> "number" ->
  truthy (ReactInstanceMap_get w x) = true ->
  injectedFindNode w = VFunction f ->
  (check_completes' w = true ->
   outcome (findNodeHandle __DEV__ getComponentName host_call x w) =
     host_call (entry_world' w) f (ReactInstanceMap_get w x)) /\
  (forall tag stateNode,
     __DEV__ = true ->
     ReactCurrentOwner_current w = Some (Fiber tag stateNode) ->
     is_nullish stateNode = true ->
     findNodeHandle __DEV__ getComponentName host_call x w =
       Ran w []
         (Throw (TypeError (CannotReadProperty stateNode
                              warnedAboutRefsInRender_key)))).
Proof.
  intros Hnull Hnum Hinst Hslot. split.
  - intros Hok. rewrite findNodeHandle_mounted by done. simpl.
    by rewrite Hslot.
  - intros tag stateNode. apply findNodeHandle_without_instance.
Qed.

(** C3.  For every input that is neither null, undefined nor a number, that
    has no (truthy) internal instance in the map and for which the injected
    [findRootNodeID] strategy returns a falsy value, a call whose
    development check completes throws: the "Argument is not a component"
    failure when the input is neither an object bearing [_rootNodeID] or
    [_nativeTag] nor a value with a [render] function, the "unmounted
    component" failure otherwise.  In development mode with a fiber owner
    whose [stateNode] is [null] or [undefined] it throws the type error of
    line 68 instead. *)
Theorem findNodeHandle_throws_when_unresolved x w f v :
  is_nullish x = false -> typeof x <> "number" ->
  truthy (ReactInstanceMap_get w x) = false ->
  injectedFindRootNodeID w = VFunction f ->
  host_call (entry_world' w) f x = Return v -> truthy v = false ->
  let native :=
    typeof x = "object" /\
    (has_prop (heap w) x "_rootNodeID" = true \/
     has_prop (heap w) x "_nativeTag" = true) in
  let composite := typeof (get_prop (heap w) x "render") = "function" in
  (check_completes' w = true ->
   (~ (native \/ composite) ->
    outcome (findNodeHandle __DEV__ getComponentName host_call x w) =
      Throw (InvariantViolation
               "findNodeHandle(...): Argument is not a component (type: %s, keys: %s)"
               [AValue (VString (typeof x));
                AKeys (keys (heap (entry_world' w)) x)])) /\
   (native \/ composite ->
    outcome (findNodeHandle __DEV__ getComponentName host_call x w) =
      Throw (InvariantViolation
               "findNodeHandle(...): Unable to find node handle for unmounted component."
               []))) /\
  (forall tag stateNode,
     __DEV__ = true ->
     ReactCurrentOwner_current w = Some (Fiber tag stateNode) ->
     is_nullish stateNode = true ->
     outcome (findNodeHandle __DEV__ getComponentName host_call x w) =
       Throw (TypeError (CannotReadProperty stateNode
                           warnedAboutRefsInRender_key))).
Proof.
  intros Hnull Hnum Hinst Hslot Hcall Hv native composite. split.
  - intros Hok. rewrite findNodeHandle_unmounted by done. simpl.
    rewrite Hslot. simpl. rewrite Hcall. simpl. rewrite Hv.
    rewrite is_component_entry.
    pose proof (is_component_spec (heap w) x) as Hspec.
    fold native composite in Hspec.
    destruct (is_component (heap w) x).
    + split; [|done]. intros Hno. destruct Hno. by apply Hspec.
    + split; [done|]. intros Hyes. apply Hspec in Hyes. done.
  - intros tag stateNode Hdev Ho Hn.
    by rewrite (findNodeHandle_without_instance x w tag stateNode).
Qed.

(** C4.  For every input that is neither null, undefined nor a number, a
    call whose development check completes looks the instance map up
    first; [findRootNodeID] is invoked, on the input, only when that lookup
    is falsy, and a truthy answer is then the result; it is never invoked
    when the lookup is truthy.  In development mode with a fiber owner
    whose [stateNode] is [null] or [undefined] neither branch is tried: the
    trace is empty and the call throws the type error of line 68. *)
Theorem findNodeHandle_lookup_order x w :
  is_nullish x = false -> typeof x <> "number" ->
  let r := findNodeHandle __DEV__ getComponentName host_call x w in
  let internalInstance := ReactInstanceMap_get w x in
  (check_completes' w = true ->
   Forall (fun e => is_warning e = true) (dev_trace' w) /\
   (truthy internalInstance = true ->
    trace r =
      dev_trace' w ++
      [EvInstanceMapGet x;
       EvInvoke FindNode (injectedFindNode w) internalInstance] /\
    Forall (fun e => invokes FindRootNodeID e = false) (trace r)) /\
   (truthy internalInstance = false ->
    trace r =
      dev_trace' w ++
      [EvInstanceMapGet x;
       EvInvoke FindRootNodeID (injectedFindRootNodeID w) x] /\
    forall v,
      call_value' (entry_world' w) (injectedFindRootNodeID w) x = Return v ->
      truthy v = true -> outcome r = Return v)) /\
  (forall tag stateNode,
     __DEV__ = true ->
     ReactCurrentOwner_current w = Some (Fiber tag stateNode) ->
     is_nullish stateNode = true ->
     trace r = [] /\
     outcome r = Throw (TypeError (CannotReadProperty stateNode
                                     warnedAboutRefsInRender_key))).
Proof.
  intros Hnull Hnum r inst. subst r inst. split.
  - intros Hok.
    split; [apply dev_trace_warnings|]. split; intros Hinst.
    + rewrite findNodeHandle_mounted by done. simpl. split; [done|].
      apply Forall_app. split.
      * eapply Forall_impl; [apply dev_trace_warnings|].
        by intros [] ?.
      * by repeat constructor.
    + rewrite findNodeHandle_unmounted by done. simpl. split; [done|].
      intros v Hcall Hv. by rewrite Hcall; simpl; rewrite Hv.
  - intros tag stateNode Hdev Ho Hn.
    by rewrite (findNodeHandle_without_instance x w tag stateNode).
Qed.

(** C5.  For every numeric input [n], a call whose development check
    completes returns [n]; hence, in the state a call leaves, the function
    is idempotent on any numeric result it produced.  In development mode
    with a fiber owner whose [stateNode] is [null] or [undefined],
    [findNodeHandle(n)] throws the type error of line 68 instead of
    returning [n]. *)
Theorem findNodeHandle_number_identity :
  (forall n w,
     check_completes' w = true ->
     outcome (findNodeHandle __DEV__ getComponentName host_call (VNumber n) w)
       = Return (VNumber n)) /\
  (forall x w n,
     outcome (findNodeHandle __DEV__ getComponentName host_call x w)
       = Return (VNumber n) ->
     outcome (findNodeHandle __DEV__ getComponentName host_call (VNumber n)
                (final (findNodeHandle __DEV__ getComponentName host_call x w)))
       = Return (VNumber n)) /\
  (forall n w tag stateNode,
     __DEV__ = true ->
     ReactCurrentOwner_current w = Some (Fiber tag stateNode) ->
     is_nullish stateNode = true ->
     outcome (findNodeHandle __DEV__ getComponentName host_call (VNumber n) w)
       = Throw (TypeError (CannotReadProperty stateNode
                             warnedAboutRefsInRender_key))).
Proof.
  assert (forall n w, check_completes' w = true ->
    outcome (findNodeHandle' (VNumber n) w) = Return (VNumber n)) as Hid.
  { intros n w Hok. by rewrite findNodeHandle_runs. }
  split; [done|]. split.
  - intros x w n Hret. apply Hid.
    rewrite findNodeHandle_final, check_completes_entry.
    by apply (findNodeHandle_returned x w (VNumber n)).
  - intros n w tag stateNode Hdev Ho Hn.
    by rewrite (findNodeHandle_without_instance _ w tag stateNode).
Qed.

(** C6.  For the inputs [null] and [undefined], a call consults the
    instance map never and invokes neither strategy; when its development
    check completes it returns [null].  In development mode with a fiber
    owner whose [stateNode] is [null] or [undefined] it throws the type
    error of line 68 instead of returning [null]. *)
Theorem findNodeHandle_null_or_undefined x w :
  x = VNull \/ x = VUndefined ->
  let r := findNodeHandle __DEV__ getComponentName host_call x w in
  Forall (fun e => is_lookup e = false /\ is_invoke e = false) (trace r) /\
  (check_completes' w = true -> outcome r = Return VNull) /\
  (forall tag stateNode,
     __DEV__ = true ->
     ReactCurrentOwner_current w = Some (Fiber tag stateNode) ->
     is_nullish stateNode = true ->
     outcome r = Throw (TypeError (CannotReadProperty stateNode
                                     warnedAboutRefsInRender_key))).
Proof.
  intros Hx. simpl.
  assert (is_nullish x = true) as Hnull by (by destruct Hx as [->| ->]).
  assert (Forall (fun e => is_lookup e = false /\ is_invoke e = false)
            (dev_trace' w)) as Hquiet.
  { eapply Forall_impl; [apply dev_trace_warnings|]. by intros [] ?. }
  split; [|split].
  - destruct (check_completes' w) eqn:Hok.
    + rewrite findNodeHandle_runs, resolve_nullish by done. simpl.
      by rewrite app_nil_r.
    + destruct (findNodeHandle_blocked x w Hok) as [why ->]. done.
  - intros Hok. by rewrite findNodeHandle_runs, resolve_nullish.
  - intros tag stateNode Hdev Ho Hn.
    by rewrite (findNodeHandle_without_instance x w tag stateNode).
Qed.

(** C10.  For every input that is neither null, undefined nor a number,
    resolution needs the strategy to have been injected: with the slot in
    use still undefined ([injectedFindNode] when the map lookup is truthy,
    [injectedFindRootNodeID] otherwise) the call fails with a type error;
    it neither returns nor raises the module's own invariant failure.  When
    the development check completes, the type error comes from invoking
    [undefined].  In development mode with a fiber owner whose [stateNode]
    is [null] or [undefined] nothing is invoked: the type error is that of
    line 68. *)
Theorem findNodeHandle_needs_injection x w :
  is_nullish x = false -> typeof x <> "number" ->
  let r := findNodeHandle __DEV__ getComponentName host_call x w in
  let internalInstance := ReactInstanceMap_get w x in
  let used := if truthy internalInstance then FindNode else FindRootNodeID in
  let argument := if truthy internalInstance then internalInstance else x in
  (slot_value used w = VUndefined ->
   (exists why, outcome r = Throw (TypeError why)) /\
   (forall v, outcome r <> Return v) /\
   (forall format args, outcome r <> Throw (InvariantViolation format args)) /\
   (check_completes' w = true ->
    EvInvoke used VUndefined argument ∈ trace r /\
    outcome r = Throw (TypeError (NotAFunction VUndefined)))) /\
  (forall v, outcome r = Return v -> exists f, slot_value used w = VFunction f) /\
  (forall tag stateNode,
     __DEV__ = true ->
     ReactCurrentOwner_current w = Some (Fiber tag stateNode) ->
     is_nullish stateNode = true ->
     trace r = [] /\
     outcome r = Throw (TypeError (CannotReadProperty stateNode
                                     warnedAboutRefsInRender_key))).
Proof.
  intros Hnull Hnum r inst used argument. subst r inst used argument.
  split; [|split].
  - intros Hslot. destruct (check_completes' w) eqn:Hok.
    + destruct (truthy (ReactInstanceMap_get w x)) eqn:Hinst; simpl in *.
      * rewrite findNodeHandle_mounted by done. simpl. rewrite Hslot. simpl.
        repeat split; try done; eauto.
        rewrite elem_of_app. right. set_solver.
      * rewrite findNodeHandle_unmounted by done. simpl. rewrite Hslot. simpl.
        repeat split; try done; eauto.
        rewrite elem_of_app. right. set_solver.
    + destruct (findNodeHandle_blocked x w Hok) as [why ->]. simpl.
      repeat split; try done; eauto.
  - intros v Hret.
    pose proof (findNodeHandle_returned x w v Hret) as Hok.
    destruct (truthy (ReactInstanceMap_get w x)) eqn:Hinst; simpl.
    + rewrite findNodeHandle_mounted in Hret by done. simpl in Hret.
      apply call_value_return in Hret as (f & -> & _). eauto.
    + rewrite findNodeHandle_unmounted in Hret by done. simpl in Hret.
      apply after_findRootNodeID_return in Hret as [Hcall _].
      apply call_value_return in Hcall as (f & -> & _). eauto.
  - intros tag stateNode Hdev Ho Hn.
    by rewrite (findNodeHandle_without_instance x w tag stateNode).
Qed.

(** *** Warnings along a sequence of calls *)

Lemma warnings_about_app o t1 t2 :
  warnings_about o (t1 ++ t2) = warnings_about o t1 + warnings_about o t2.
Proof. unfold warnings_about. by rewrite List.filter_app, length_app. Qed.

Lemma warnings_on_app l t1 t2 :
  warnings_on l (t1 ++ t2) = warnings_on l t1 + warnings_on l t2.
Proof. unfold warnings_on. by rewrite List.filter_app, length_app. Qed.

Lemma resolve_trace_silent x w :
  Forall (fun e => is_warning e = false) (trace (resolve' x w)).
Proof.
  destruct (is_nullish x) eqn:Hnull.
  - rewrite resolve_nullish by done. constructor.
  - destruct (decide (typeof x = "number")) as [Hnum|Hnum].
    + destruct (typeof_number x Hnum) as [n ->]. constructor.
    + destruct (truthy (ReactInstanceMap_get w x)) eqn:Hinst.
      * rewrite resolve_mounted by done. by repeat constructor.
      * rewrite resolve_unmounted by done. by repeat constructor.
Qed.

Lemma filter_silent (t : list event) :
  Forall (fun e => is_warning e = false) t -> List.filter is_warning t = [].
Proof.
  induction 1 as [|e t He _ IH]; [done|]. simpl. by rewrite He.
Qed.

Lemma filter_warnings (t : list event) :
  Forall (fun e => is_warning e = true) t -> List.filter is_warning t = t.
Proof.
  induction 1 as [|e t He _ IH]; [done|]. simpl. by rewrite He, IH.
Qed.

Lemma silent_on l (t : list event) :
  Forall (fun e => is_warning e = false) t -> warnings_on l t = 0.
Proof.
  unfold warnings_on.
  induction 1 as [|e t He _ IH]; [done|]. simpl.
  destruct e; try done.
Qed.

(** A warning about an owner is a warning on the object that bears its
    flag. *)
Lemma warnings_about_on o l (t : list event) :
  flag_address o = Some l -> warnings_about o t <= warnings_on l t.
Proof.
  intros Hl. unfold warnings_about, warnings_on.
  induction t as [|e t IH]; simpl; [lia|].
  destruct e as [o' fmt args| |]; simpl; try done.
  destruct (bool_decide_reflect (o' = o)) as [->|_].
  - unfold flag_address in Hl. rewrite bool_decide_true by done. simpl. lia.
  - destruct (bool_decide (address_of (flag_holder o') = Some l)); simpl; lia.
Qed.

(** The trace of a call is the trace of its check followed by lookups and
    invocations. *)
Lemma findNodeHandle_trace x w :
  exists t,
    trace (findNodeHandle' x w) = dev_trace' w ++ t /\
    Forall (fun e => is_warning e = false) t.
Proof.
  destruct (check_completes' w) eqn:Hok.
  - rewrite findNodeHandle_runs by done. simpl.
    eexists. split; [done|]. apply resolve_trace_silent.
  - destruct (findNodeHandle_blocked x w Hok) as [why ->]. simpl.
    exists []. by rewrite app_nil_r.
Qed.

(** The warnings of a call are those of its development check. *)
Lemma findNodeHandle_warnings x w :
  List.filter is_warning (trace (findNodeHandle' x w)) = dev_trace' w.
Proof.
  destruct (findNodeHandle_trace x w) as (t & -> & Ht).
  rewrite List.filter_app, (filter_silent _ Ht), app_nil_r.
  apply filter_warnings, dev_trace_warnings.
Qed.

Lemma findNodeHandle_warnings_on l x w :
  warnings_on l (trace (findNodeHandle' x w)) = warnings_on l (dev_trace' w).
Proof.
  destruct (findNodeHandle_trace x w) as (t & -> & Ht).
  rewrite warnings_on_app, (silent_on _ _ Ht). lia.
Qed.

(** Once set, a flag stays set through the development check. *)
Lemma entry_world_keeps_flagged w l :
  flagged w l = true -> flagged (entry_world' w) l = true.
Proof.
  intros Hf.
  destruct (ReactCurrentOwner_current w) as [o|] eqn:Ho.
  - destruct (address_of (flag_holder o)) as [l'|] eqn:Hl.
    + destruct (Bool.bool_dec __DEV__ true)
        as [Hdev|Hdev%Bool.not_true_is_false].
      * rewrite (entry_world_object w o l' Hdev Ho Hl).
        unfold flagged in *. simpl. by apply flag_stays_set.
      * by rewrite entry_world_production.
    + by rewrite (entry_world_not_object w o).
  - by rewrite entry_world_no_owner.
Qed.

(** After the check has completed for an owner, that owner's flag is
    set. *)
Lemma entry_world_sets_flagged w o l :
  __DEV__ = true -> ReactCurrentOwner_current w = Some o ->
  address_of (flag_holder o) = Some l ->
  flagged (entry_world' w) l = true.
Proof.
  intros Hdev Ho Hl. rewrite (entry_world_object w o l Hdev Ho Hl).
  unfold flagged. simpl.
  by rewrite heap_obj_set_same, obj_get_set_same.
Qed.

(** No warning is printed on an object whose flag is set. *)
Lemma dev_trace_flagged w l :
  flagged w l = true -> warnings_on l (dev_trace' w) = 0.
Proof.
  intros Hf. unfold dev_trace.
  destruct (check_cases w)
    as [Hdev|[[Hdev Ho]|[(o&l'&Hdev&Ho&Hl)|[(o&Hdev&Ho&Hn)|(o&Hdev&Ho&Hp)]]]].
  - by rewrite warn_refs_in_render_production.
  - by rewrite warn_refs_in_render_no_owner.
  - rewrite (warn_refs_in_render_object w o l') by done. simpl.
    destruct (warned w o) eqn:Hw; [done|].
    unfold warnings_on. simpl.
    destruct (bool_decide_reflect (address_of (flag_holder o) = Some l))
      as [Heq|_]; [|done].
    rewrite (warned_flagged w o l Heq) in Hw. congruence.
  - by rewrite (warn_refs_in_render_nullish w o).
  - rewrite (warn_refs_in_render_primitive w o) by done.
    unfold warnings_on. simpl.
    destruct (bool_decide_reflect (address_of (flag_holder o) = Some l))
      as [Heq|_]; [|done].
    by destruct (flag_holder o).
Qed.

(** A check warns at most once on an object, and flags it when it does. *)
Lemma dev_trace_on_at_most_one w l :
  warnings_on l (dev_trace' w) = 0 \/
  (warnings_on l (dev_trace' w) = 1 /\ flagged (entry_world' w) l = true).
Proof.
  unfold dev_trace.
  destruct (check_cases w)
    as [Hdev|[[Hdev Ho]|[(o&l'&Hdev&Ho&Hl)|[(o&Hdev&Ho&Hn)|(o&Hdev&Ho&Hp)]]]].
  - left. by rewrite warn_refs_in_render_production.
  - left. by rewrite warn_refs_in_render_no_owner.
  - rewrite (warn_refs_in_render_object w o l') by done. simpl.
    destruct (warned w o) eqn:Hw; [by left|].
    unfold warnings_on. simpl.
    destruct (bool_decide_reflect (address_of (flag_holder o) = Some l))
      as [Heq|_]; [|by left].
    right. split; [done|]. by apply (entry_world_sets_flagged w o l).
  - left. by rewrite (warn_refs_in_render_nullish w o).
  - left. rewrite (warn_refs_in_render_primitive w o) by done.
    unfold warnings_on. simpl.
    destruct (bool_decide_reflect (address_of (flag_holder o) = Some l))
      as [Heq|_]; [|done].
    by destruct (flag_holder o).
Qed.

Lemma step_keeps_flagged a w l :
  flagged w l = true ->
  flagged (step' a w).1 l = true /\ warnings_on l (step' a w).2 = 0.
Proof.
  intros Hf. destruct a as [o|f|f|x]; simpl; try done.
  rewrite findNodeHandle_final, findNodeHandle_warnings_on.
  split; [by apply entry_world_keeps_flagged | by apply dev_trace_flagged].
Qed.

Lemma run_keeps_flagged acts w l :
  flagged w l = true ->
  flagged (run' acts w).1 l = true /\ warnings_on l (run' acts w).2 = 0.
Proof.
  revert w. induction acts as [|a acts IH]; intros w Hf; [done|].
  simpl. destruct (step_keeps_flagged a w l Hf) as [Hf1 Ht1].
  destruct (step' a w) as [w1 t1]. simpl in *.
  destruct (IH w1 Hf1) as [Hf2 Ht2].
  destruct (run' acts w1) as [w2 t2]. simpl in *.
  split; [done|]. rewrite warnings_on_app. lia.
Qed.

Lemma step_on_at_most_one a w l :
  warnings_on l (step' a w).2 = 0 \/
  (warnings_on l (step' a w).2 = 1 /\ flagged (step' a w).1 l = true).
Proof.
  destruct a as [o|f|f|x]; simpl; try by left.
  rewrite findNodeHandle_final, findNodeHandle_warnings_on.
  apply dev_trace_on_at_most_one.
Qed.

Lemma run_on_at_most_one acts w l : warnings_on l (run' acts w).2 <= 1.
Proof.
  revert w. induction acts as [|a acts IH]; intros w; simpl.
  { unfold warnings_on. simpl. lia. }
  pose proof (step_on_at_most_one a w l) as Hstep.
  destruct (step' a w) as [w1 t1]. simpl in *.
  specialize (IH w1). pose proof (run_keeps_flagged acts w1 l) as Hkeep.
  destruct (run' acts w1) as [w2 t2]. simpl in *.
  rewrite warnings_on_app.
  destruct Hstep as [->|[-> Hf1]]; [lia|].
  destruct (Hkeep Hf1) as [_ ->]. lia.
Qed.

(** C7.  In development mode with a current owner whose flag holder is not
    [null] or [undefined], a call issues the "accessing findNodeHandle
    inside its render()" warning only if that owner's
    [_warnedAboutRefsInRender] flag is unset; when the holder is an object
    the flag is set afterwards, so along any sequence of calls such an
    owner is warned about at most once.  In production mode, or without a
    current owner, no warning is issued.  With a fiber owner whose
    [stateNode] is [null] or [undefined] the call throws the type error of
    line 68: nothing is printed and no flag is set. *)
Theorem findNodeHandle_warns_once :
  (forall x w o,
     __DEV__ = true -> ReactCurrentOwner_current w = Some o ->
     is_nullish (flag_holder o) = false ->
     List.filter is_warning
       (trace (findNodeHandle __DEV__ getComponentName host_call x w)) =
       (if warned w o then []
        else [EvWarning o refs_in_render_format
                [AValue (js_or (getComponentName o) (VString "A component"))]])) /\
  (forall x w o l,
     __DEV__ = true -> ReactCurrentOwner_current w = Some o ->
     flag_address o = Some l ->
     warned (final (findNodeHandle __DEV__ getComponentName host_call x w)) o
       = true) /\
  (forall acts w o l,
     flag_address o = Some l -> warnings_about o (run' acts w).2 <= 1) /\
  (forall x w,
     __DEV__ = false \/ ReactCurrentOwner_current w = None ->
     List.filter is_warning
       (trace (findNodeHandle __DEV__ getComponentName host_call x w)) = []) /\
  (forall x w tag stateNode,
     __DEV__ = true ->
     ReactCurrentOwner_current w = Some (Fiber tag stateNode) ->
     is_nullish stateNode = true ->
     let r := findNodeHandle __DEV__ getComponentName host_call x w in
     trace r = [] /\ final r = w /\
     warned (final r) (Fiber tag stateNode) = false /\
     outcome r = Throw (TypeError (CannotReadProperty stateNode
                                     warnedAboutRefsInRender_key))).
Proof.
  split; [|split; [|split; [|split]]].
  - intros x w o Hdev Ho Hn.
    rewrite findNodeHandle_warnings. by apply dev_trace_owner.
  - intros x w o l Hdev Ho Hl. rewrite findNodeHandle_final.
    rewrite (warned_flagged _ o l Hl).
    by apply (entry_world_sets_flagged w o l).
  - intros acts w o l Hl.
    pose proof (warnings_about_on o l (run' acts w).2 Hl).
    pose proof (run_on_at_most_one acts w l). lia.
  - intros x w Hcase. rewrite findNodeHandle_warnings.
    destruct Hcase; [by apply dev_trace_production | by apply dev_trace_no_owner].
  - intros x w tag stateNode Hdev Ho Hn.
    rewrite (findNodeHandle_without_instance x w tag stateNode) by done.
    simpl. repeat split; try done.
    unfold warned, warnedAboutRefsInRender. simpl.
    by destruct stateNode.
Qed.

(** *** Injection *)





End Properties.

(** *** Production mode *)

(** C9.  In production mode a call leaves the whole state as it found it:
    the heap (hence its argument and every owner's
    [_warnedAboutRefsInRender]), the instance map and both strategy slots.
    A flag that differs after a call was written in development mode. *)
Theorem findNodeHandle_production_writes_nothing
    (getComponentName : owner -> value)
    (host_call : world -> loc -> value -> result value) :
  (forall x w, final (findNodeHandle false getComponentName host_call x w) = w) /\
  (forall __DEV__ x w l,
     obj_get (heap_obj
                (heap (final (findNodeHandle __DEV__ getComponentName
                                host_call x w))) l)
             warnedAboutRefsInRender_key
       <> obj_get (heap_obj (heap w) l) warnedAboutRefsInRender_key ->
     __DEV__ = true).
Proof.
  assert (forall x w,
    final (findNodeHandle false getComponentName host_call x w) = w) as Hpure.
  { intros x w. rewrite findNodeHandle_final. by apply entry_world_production. }
  split; [done|].
  intros [] x w l Hdiff; [done|]. by rewrite Hpure in Hdiff.
Qed.

(** *** The statements at work on the sample states *)

Lemma findNodeHandle_four_outcomes_witness :
  has_outcome true sample_name sample_host (VObject 10%positive) sample_world
    ReturnsStrategyValue /\
  forall k,
    has_outcome true sample_name sample_host (VObject 10%positive) sample_world k ->
    k = ReturnsStrategyValue.
Proof.
  assert (has_outcome true sample_name sample_host (VObject 10%positive)
            sample_world ReturnsStrategyValue) as Hhere.
  { split; [reflexivity|]. split; [discriminate|].
    exists FindNode, 1%positive, (VObject 30%positive), (VNumber seven).
    split; [reflexivity|]. split; [|split; reflexivity].
    vm_compute. apply list_elem_of_In. right. right. left. reflexivity. }
  split; [exact Hhere|]. intros k Hk.
  exact (proj2 (findNodeHandle_four_outcomes true sample_name sample_host
                  (VObject 10%positive) sample_world)
           k ReturnsStrategyValue Hk Hhere).
Defined.

Lemma findNodeHandle_delegates_to_findNode_witness :
  outcome (findNodeHandle true sample_name sample_host (VObject 10%positive)
             sample_world) = Return (VNumber seven) /\
  findNodeHandle true sample_name sample_host (VObject 10%positive)
    functional_world =
    Ran functional_world []
      (Throw (TypeError (CannotReadProperty VNull warnedAboutRefsInRender_key))).
Proof.
  split.
  - refine (eq_trans
              (proj1 (findNodeHandle_delegates_to_findNode true sample_name
                        sample_host (VObject 10%positive) sample_world
                        1%positive _ _ _ _) _) _);
      try reflexivity. discriminate.
  - refine (proj2 (findNodeHandle_delegates_to_findNode true sample_name
                     sample_host (VObject 10%positive) functional_world
                     1%positive _ _ _ _) two VNull _ _ _);
      try reflexivity. discriminate.
Defined.

Lemma findNodeHandle_throws_when_unresolved_witness :
  outcome (findNodeHandle true sample_name sample_host (VObject 12%positive)
             sample_world) =
    Throw (InvariantViolation
             "findNodeHandle(...): Argument is not a component (type: %s, keys: %s)"
             [AValue (VString "object"); AKeys ["a"]]) /\
  outcome (findNodeHandle true sample_name sample_host (VObject 11%positive)
             sample_world) =
    Throw (InvariantViolation
             "findNodeHandle(...): Unable to find node handle for unmounted component."
             []) /\
  outcome (findNodeHandle true sample_name sample_host (VObject 11%positive)
             functional_world) =
    Throw (TypeError (CannotReadProperty VNull warnedAboutRefsInRender_key)).
Proof.
  split; [|split].
  - refine (proj1 (proj1 (findNodeHandle_throws_when_unresolved true
                            sample_name sample_host (VObject 12%positive)
                            sample_world 2%positive
                            (VNumber (S754_zero false)) _ _ _ _ _ _) _) _);
      try reflexivity; try discriminate.
    intros [[_ [Hno|Hno]]|Hno]; vm_compute in Hno; discriminate Hno.
  - refine (proj2 (proj1 (findNodeHandle_throws_when_unresolved true
                            sample_name sample_host (VObject 11%positive)
                            sample_world 2%positive
                            (VNumber (S754_zero false)) _ _ _ _ _ _) _) _);
      try reflexivity; try discriminate.
    left. split; [reflexivity|]. right. reflexivity.
  - refine (proj2 (findNodeHandle_throws_when_unresolved true
                     sample_name sample_host (VObject 11%positive)
                     functional_world 2%positive
                     (VNumber (S754_zero false)) _ _ _ _ _ _)
              two VNull _ _ _);
      try reflexivity; try discriminate.
Defined.

Lemma findNodeHandle_lookup_order_witness :
  trace (findNodeHandle false sample_name sample_host (VObject 10%positive)
           sample_world) =
    [EvInstanceMapGet (VObject 10%positive);
     EvInvoke FindNode (VFunction 1%positive) (VObject 30%positive)] /\
  trace (findNodeHandle false sample_name sample_host (VObject 12%positive)
           resolving_world) =
    [EvInstanceMapGet (VObject 12%positive);
     EvInvoke FindRootNodeID (VFunction 1%positive) (VObject 12%positive)] /\
  outcome (findNodeHandle false sample_name sample_host (VObject 12%positive)
             resolving_world) = Return (VNumber seven) /\
  trace (findNodeHandle true sample_name sample_host (VObject 10%positive)
           functional_world) = [].
Proof.
  pose proof (findNodeHandle_lookup_order false sample_name sample_host
                (VObject 10%positive) sample_world eq_refl) as Hmounted.
  pose proof (findNodeHandle_lookup_order false sample_name sample_host
                (VObject 12%positive) resolving_world eq_refl) as Hunmounted.
  pose proof (findNodeHandle_lookup_order true sample_name sample_host
                (VObject 10%positive) functional_world eq_refl) as Hblocked.
  split; [|split; [|split]].
  - refine (proj1 (proj1 (proj2 (proj1 (Hmounted _) eq_refl)) eq_refl)).
    discriminate.
  - refine (proj1 (proj2 (proj2 (proj1 (Hunmounted _) eq_refl)) eq_refl)).
    discriminate.
  - refine (proj2 (proj2 (proj2 (proj1 (Hunmounted _) eq_refl)) eq_refl)
              _ eq_refl eq_refl).
    discriminate.
  - refine (proj1 (proj2 (Hblocked _) two VNull eq_refl eq_refl eq_refl)).
    discriminate.
Defined.

Lemma findNodeHandle_number_identity_witness :
  outcome (findNodeHandle true sample_name sample_host (VNumber seven)
             sample_world) = Return (VNumber seven) /\
  outcome (findNodeHandle true sample_name sample_host (VNumber seven)
             (final (findNodeHandle true sample_name sample_host
                       (VObject 10%positive) sample_world)))
    = Return (VNumber seven) /\
  outcome (findNodeHandle true sample_name sample_host (VNumber seven)
             functional_world)
    = Throw (TypeError (CannotReadProperty VNull warnedAboutRefsInRender_key)).
Proof.
  pose proof (findNodeHandle_number_identity true sample_name sample_host)
    as (Hid & Hidem & Hthrow).
  split; [|split].
  - apply Hid. reflexivity.
  - apply Hidem. reflexivity.
  - apply (Hthrow seven functional_world two VNull); reflexivity.
Defined.

Lemma findNodeHandle_null_or_undefined_witness :
  Forall (fun e => is_lookup e = false /\ is_invoke e = false)
    (trace (findNodeHandle true sample_name sample_host VUndefined fresh_world))
  /\
  outcome (findNodeHandle true sample_name sample_host VUndefined fresh_world)
    = Return VNull /\
  outcome (findNodeHandle true sample_name sample_host VUndefined
             functional_world)
    = Throw (TypeError (CannotReadProperty VNull warnedAboutRefsInRender_key)).
Proof.
  assert (VUndefined = VNull \/ VUndefined = VUndefined) as Hx
    by (right; reflexivity).
  pose proof (findNodeHandle_null_or_undefined true sample_name sample_host
                VUndefined fresh_world Hx) as (Hquiet & Hnull & _).
  pose proof (findNodeHandle_null_or_undefined true sample_name sample_host
                VUndefined functional_world Hx) as (_ & _ & Hthrow).
  split; [exact Hquiet|]. split.
  - apply Hnull. reflexivity.
  - apply (Hthrow two VNull); reflexivity.
Defined.

Lemma findNodeHandle_warns_once_witness :
  List.filter is_warning
    (trace (findNodeHandle true sample_name sample_host VNull sample_world)) =
    [EvWarning sample_owner refs_in_render_format [AValue (VString "Foo")]] /\
  warned (final (findNodeHandle true sample_name sample_host VNull sample_world))
    sample_owner = true /\
  warnings_about sample_owner
    (run true sample_name sample_host
       [CallFindNodeHandle VNull; CallFindNodeHandle (VNumber seven);
        CallFindNodeHandle VNull] sample_world).2 <= 1 /\
  List.filter is_warning
    (trace (findNodeHandle false sample_name sample_host VNull sample_world)) = []
  /\
  warned (final (findNodeHandle true sample_name sample_host VNull
                   functional_world)) functional_owner = false.
Proof.
  pose proof (findNodeHandle_warns_once true sample_name sample_host)
    as (Hone & Hset & Hseq & _ & Hblocked).
  pose proof (findNodeHandle_warns_once false sample_name sample_host)
    as (_ & _ & _ & Hnone & _).
  split; [|split; [|split; [|split]]].
  - exact (Hone VNull sample_world sample_owner eq_refl eq_refl eq_refl).
  - exact (Hset VNull sample_world sample_owner 10%positive
             eq_refl eq_refl eq_refl).
  - exact (Hseq _ sample_world sample_owner 10%positive eq_refl).
  - apply Hnone. left. reflexivity.
  - exact (proj1 (proj2 (proj2 (Hblocked VNull functional_world two VNull
                                  eq_refl eq_refl eq_refl)))).
Defined.


Lemma findNodeHandle_production_writes_nothing_witness :
  final (findNodeHandle false sample_name sample_host (VObject 10%positive)
           sample_world) = sample_world /\
  obj_get (heap_obj
             (heap (final (findNodeHandle true sample_name sample_host VNull
                             sample_world))) 10%positive)
          warnedAboutRefsInRender_key
    <> obj_get (heap_obj (heap sample_world) 10%positive)
         warnedAboutRefsInRender_key /\
  true = true.
Proof.
  pose proof (findNodeHandle_production_writes_nothing sample_name sample_host)
    as [Hpure Hdev].
  assert (obj_get (heap_obj
             (heap (final (findNodeHandle true sample_name sample_host VNull
                             sample_world))) 10%positive)
            warnedAboutRefsInRender_key
          <> obj_get (heap_obj (heap sample_world) 10%positive)
               warnedAboutRefsInRender_key) as Hwritten.
  { vm_compute. discriminate. }
  split; [apply Hpure|]. split; [exact Hwritten|].
  exact (Hdev true VNull sample_world 10%positive Hwritten).
Defined.

Lemma findNodeHandle_needs_injection_witness :
  In (EvInvoke FindNode VUndefined (VObject 30%positive))
    (trace (findNodeHandle false sample_name sample_host (VObject 10%positive)
              fresh_world)) /\
  outcome (findNodeHandle false sample_name sample_host (VObject 10%positive)
             fresh_world) = Throw (TypeError (NotAFunction VUndefined)) /\
  trace (findNodeHandle true sample_name sample_host (VObject 10%positive)
           (set_current_owner (Some functional_owner) fresh_world)) = [].
Proof.
  pose proof (findNodeHandle_needs_injection false sample_name sample_host
                (VObject 10%positive) fresh_world eq_refl) as Hneeds.
  pose proof (findNodeHandle_needs_injection true sample_name sample_host
                (VObject 10%positive)
                (set_current_owner (Some functional_owner) fresh_world)
                eq_refl) as Hblocked.
  assert (typeof (VObject 10%positive) <> "number") as Hnum by discriminate.
  destruct (proj1 (Hneeds Hnum) eq_refl) as (_ & _ & _ & Hinvoke).
  destruct (Hinvoke eq_refl) as [Hin Hthrow].
  split; [|split].
  - apply list_elem_of_In. exact Hin.
  - exact Hthrow.
  - exact (proj1 (proj2 (proj2 (Hblocked Hnum)) two VNull
                    eq_refl eq_refl eq_refl)).
Defined.

(** ** Further properties of the module *)

Section MoreProperties.

Variable __DEV__ : bool.
Variable getComponentName : owner -> value.
Variable host_call : world -> loc -> value -> result value.

Local Abbreviation run' := (run __DEV__ getComponentName host_call).
Local Abbreviation entry_world' := (entry_world __DEV__ getComponentName).
Local Abbreviation dev_trace' := (dev_trace __DEV__ getComponentName).
Local Abbreviation check_completes' := (check_completes __DEV__).

(** *** The effect of a call on the state *)

(** X3.  The development check runs before the argument is looked at: a
    call prints the same warnings whatever its argument, [null] and numbers
    included. *)
Theorem findNodeHandle_effect_ignores_argument x y w :
  List.filter is_warning
    (trace (findNodeHandle __DEV__ getComponentName host_call x w)) =
    List.filter is_warning
      (trace (findNodeHandle __DEV__ getComponentName host_call y w)).
Proof. by rewrite !findNodeHandle_warnings. Qed.

Lemma entry_world_twice w : entry_world' (entry_world' w) = entry_world' w.
Proof.
  destruct (ReactCurrentOwner_current w) as [o|] eqn:Ho.
  - destruct (address_of (flag_holder o)) as [l|] eqn:Hl.
    + destruct (Bool.bool_dec __DEV__ true)
        as [Hdev|Hdev%Bool.not_true_is_false].
      * rewrite (entry_world_object _ getComponentName w o l Hdev Ho Hl).
        rewrite (entry_world_object _ getComponentName _ o l Hdev); [|done..].
        unfold set_heap. simpl. by rewrite heap_set_twice.
      * by rewrite !(entry_world_production _ getComponentName w Hdev).
    + by rewrite !(entry_world_not_object _ getComponentName w o Ho Hl).
  - by rewrite !(entry_world_no_owner _ getComponentName w Ho).
Qed.

Lemma dev_trace_after_entry w :
  (forall o, ReactCurrentOwner_current w = Some o ->
             is_primitive (flag_holder o) = false) ->
  dev_trace' (entry_world' w) = [].
Proof.
  intros Hprim.
  destruct (entry_world_frame __DEV__ getComponentName w) as (_ & Hown & _).
  destruct (check_cases __DEV__ w)
    as [Hdev|[[Hdev Ho]|[(o&l&Hdev&Ho&Hl)|[(o&Hdev&Ho&Hn)|(o&Hdev&Ho&Hp)]]]].
  - by apply dev_trace_production.
  - apply dev_trace_no_owner. by rewrite Hown.
  - rewrite (dev_trace_owner _ getComponentName _ o Hdev);
      [|by rewrite Hown|by destruct (flag_holder o)].
    rewrite (warned_flagged _ o l Hl).
    by rewrite (entry_world_sets_flagged _ getComponentName w o l).
  - apply (dev_trace_nullish _ getComponentName _ o); [by rewrite Hown|done].
  - rewrite (Hprim o Ho) in Hp. done.
Qed.

(** X4.  A second call made right after a first one, with any argument,
    leaves the state exactly as the first call left it; and it prints no
    warning, unless the owner's flag holder is a primitive, which cannot
    bear the flag. *)
Theorem findNodeHandle_effect_idempotent x y w :
  let w1 := final (findNodeHandle __DEV__ getComponentName host_call x w) in
  let r2 := findNodeHandle __DEV__ getComponentName host_call y w1 in
  final r2 = w1 /\
  ((forall o, ReactCurrentOwner_current w = Some o ->
              is_primitive (flag_holder o) = false) ->
   List.filter is_warning (trace r2) = []).
Proof.
  simpl. rewrite findNodeHandle_warnings, !findNodeHandle_final.
  split; [apply entry_world_twice | apply dev_trace_after_entry].
Qed.

(** X1.  In either build mode a call writes at most one property of one
    object: [_warnedAboutRefsInRender] on the current owner's flag holder.
    Every other property of every object reads the same afterwards, objects
    other than the holder are untouched as a whole, and the instance map,
    the current owner and both slots stay as they were. *)
Theorem findNodeHandle_writes_only_the_flag x w :
  let w' := final (findNodeHandle __DEV__ getComponentName host_call x w) in
  (forall l k,
     k <> warnedAboutRefsInRender_key ->
     obj_get (heap_obj (heap w') l) k = obj_get (heap_obj (heap w) l) k /\
     obj_has (heap_obj (heap w') l) k = obj_has (heap_obj (heap w) l) k) /\
  (forall l,
     ReactCurrentOwner_current w ≫= flag_address <> Some l ->
     heap w' !! l = heap w !! l) /\
  ReactInstanceMap w' = ReactInstanceMap w /\
  ReactCurrentOwner_current w' = ReactCurrentOwner_current w /\
  injectedFindNode w' = injectedFindNode w /\
  injectedFindRootNodeID w' = injectedFindRootNodeID w.
Proof.
  simpl. rewrite findNodeHandle_final.
  split; [|split; [|apply entry_world_frame]].
  - intros l k Hk.
    destruct (ReactCurrentOwner_current w) as [o|] eqn:Ho.
    + destruct (address_of (flag_holder o)) as [l'|] eqn:Hl.
      * destruct (Bool.bool_dec __DEV__ true)
          as [Hdev|Hdev%Bool.not_true_is_false].
        -- rewrite (entry_world_object _ getComponentName w o l' Hdev Ho Hl).
           simpl. destruct (decide (l' = l)) as [<-|Hne].
           ++ rewrite heap_obj_set_same.
              by rewrite obj_get_set_other, obj_has_set_other.
           ++ by rewrite heap_obj_set_other.
        -- by rewrite (entry_world_production _ getComponentName w Hdev).
      * by rewrite (entry_world_not_object _ getComponentName w o Ho Hl).
    + by rewrite (entry_world_no_owner _ getComponentName w Ho).
  - intros l Hl.
    destruct (ReactCurrentOwner_current w) as [o|] eqn:Ho.
    + simpl in Hl. unfold flag_address in Hl.
      destruct (address_of (flag_holder o)) as [l'|] eqn:Hl'.
      * destruct (Bool.bool_dec __DEV__ true)
          as [Hdev|Hdev%Bool.not_true_is_false].
        -- rewrite (entry_world_object _ getComponentName w o l' Hdev Ho Hl').
           simpl. unfold heap_set. rewrite lookup_insert_ne; [done|].
           congruence.
        -- by rewrite (entry_world_production _ getComponentName w Hdev).
      * by rewrite (entry_world_not_object _ getComponentName w o Ho Hl').
    + by rewrite (entry_world_no_owner _ getComponentName w Ho).
Qed.

(** X2.  In development mode with a current owner whose flag holder is an
    object, that object reads [_warnedAboutRefsInRender === true] after a
    call, and its [Object.keys] is what it was, with the flag appended when
    it was not an own property yet. *)
Theorem findNodeHandle_flag_written x w o l :
  __DEV__ = true -> ReactCurrentOwner_current w = Some o ->
  flag_address o = Some l ->
  let w' := final (findNodeHandle __DEV__ getComponentName host_call x w) in
  let before := heap_obj (heap w) l in
  let after := heap_obj (heap w') l in
  obj_get after warnedAboutRefsInRender_key = VBool true /\
  obj_keys after =
    match assoc warnedAboutRefsInRender_key (own before) with
    | Some _ => obj_keys before
    | None => obj_keys before ++ [warnedAboutRefsInRender_key]
    end.
Proof.
  intros Hdev Ho Hl. simpl. rewrite findNodeHandle_final.
  rewrite (entry_world_object _ getComponentName w o l Hdev Ho Hl). simpl.
  rewrite heap_obj_set_same, obj_get_set_same. split; [done|].
  unfold obj_keys, obj_set. simpl. apply assoc_set_keys.
Qed.

(** *** What a call returns and what it asks for *)

(** X8.  A falsy value comes back from a call in three ways only: [null]
    for a null or undefined argument, a falsy number passed in, or the
    answer of [findNode].  A falsy answer of [findRootNodeID] (0, NaN, the
    empty string, [false], [null], [undefined]) is never returned. *)
Theorem findNodeHandle_falsy_result x w v :
  outcome (findNodeHandle __DEV__ getComponentName host_call x w) = Return v ->
  truthy v = false ->
  (is_nullish x = true /\ v = VNull) \/
  (typeof x = "number" /\ v = x) \/
  (is_nullish x = false /\ typeof x <> "number" /\
   truthy (ReactInstanceMap_get w x) = true /\
   call_value host_call (entry_world __DEV__ getComponentName w)
     (injectedFindNode w) (ReactInstanceMap_get w x) = Return v).
Proof.
  intros Hret Hv.
  pose proof (findNodeHandle_returned _ _ _ x w v Hret) as Hok.
  destruct (is_nullish x) eqn:Hnull.
  { left. split; [done|].
    rewrite findNodeHandle_runs, resolve_nullish in Hret by done.
    simpl in Hret. congruence. }
  destruct (decide (typeof x = "number")) as [Hnum|Hnum].
  { right; left. split; [done|].
    destruct (typeof_number x Hnum) as [n ->].
    rewrite findNodeHandle_runs in Hret by done. simpl in Hret. congruence. }
  right; right.
  destruct (truthy (ReactInstanceMap_get w x)) eqn:Hinst.
  - rewrite findNodeHandle_mounted in Hret by done. by simpl in Hret.
  - rewrite findNodeHandle_unmounted in Hret by done. simpl in Hret.
    apply after_findRootNodeID_return in Hret as [_ Htrue]. congruence.
Qed.




(** X10.  Every warning a call prints comes first in its trace, is about
    the current owner, and names it: by [getComponentName] when that is
    truthy, as "A component" otherwise; the name printed is never falsy. *)
Theorem findNodeHandle_warning_names_owner x w e :
  e ∈ trace (findNodeHandle __DEV__ getComponentName host_call x w) ->
  is_warning e = true ->
  exists o name,
    __DEV__ = true /\ ReactCurrentOwner_current w = Some o /\
    warned w o = false /\
    e = EvWarning o refs_in_render_format [AValue name] /\
    name = (if truthy (getComponentName o) then getComponentName o
            else VString "A component") /\
    truthy name = true /\
    head (trace (findNodeHandle __DEV__ getComponentName host_call x w)) = Some e.
Proof.
  intros Hin He.
  assert (e ∈ dev_trace' w) as Hdevin.
  { rewrite <- (findNodeHandle_warnings __DEV__ getComponentName host_call x w).
    apply list_elem_of_In, List.filter_In. split; [|done].
    by apply list_elem_of_In. }
  destruct (findNodeHandle_trace __DEV__ getComponentName host_call x w)
    as (t & -> & _).
  assert (forall o,
    __DEV__ = true -> ReactCurrentOwner_current w = Some o ->
    warned w o = false ->
    e ∈ [EvWarning o refs_in_render_format
           [AValue (js_or (getComponentName o) (VString "A component"))]] ->
    dev_trace' w =
      [EvWarning o refs_in_render_format
         [AValue (js_or (getComponentName o) (VString "A component"))]] ->
    exists o' name,
      __DEV__ = true /\ ReactCurrentOwner_current w = Some o' /\
      warned w o' = false /\
      e = EvWarning o' refs_in_render_format [AValue name] /\
      name = (if truthy (getComponentName o') then getComponentName o'
              else VString "A component") /\
      truthy name = true /\
      head (dev_trace' w ++ t) = Some e) as Hone.
  { intros o Hdev Ho Hw Helem Htrace.
    apply list_elem_of_singleton in Helem as ->.
    exists o, (js_or (getComponentName o) (VString "A component")).
    rewrite Htrace. unfold js_or. repeat split; try done.
    by destruct (truthy (getComponentName o)) eqn:Hname. }
  destruct (check_cases __DEV__ w)
    as [Hdev|[[Hdev Ho]|[(o&l&Hdev&Ho&Hl)|[(o&Hdev&Ho&Hn)|(o&Hdev&Ho&Hp)]]]].
  - rewrite (dev_trace_production _ getComponentName w Hdev) in Hdevin.
    set_solver.
  - rewrite (dev_trace_no_owner _ getComponentName w Ho) in Hdevin.
    set_solver.
  - assert (is_nullish (flag_holder o) = false) as Hn
      by (by destruct (flag_holder o)).
    pose proof (dev_trace_owner _ getComponentName w o Hdev Ho Hn) as Htrace.
    destruct (warned w o) eqn:Hw.
    + rewrite Htrace in Hdevin. set_solver.
    + apply (Hone o); try done. by rewrite <- Htrace.
  - rewrite (dev_trace_nullish _ getComponentName w o Ho Hn) in Hdevin.
    set_solver.
  - assert (is_nullish (flag_holder o) = false) as Hn
      by (by destruct (flag_holder o)).
    pose proof (dev_trace_owner _ getComponentName w o Hdev Ho Hn) as Htrace.
    assert (warned w o = false) as Hw.
    { unfold warned, warnedAboutRefsInRender. by destruct (flag_holder o). }
    rewrite Hw in Htrace.
    apply (Hone o); try done. by rewrite <- Htrace.
Qed.

(** *** Flags and warnings along a sequence of actions *)

(** X5.  A flag that is set stays set: no sequence of owner changes,
    injections and calls clears a [_warnedAboutRefsInRender], and nothing
    in it warns about an owner whose flag was set at the start. *)
Theorem run_never_clears_a_flag acts w o :
  warned w o = true ->
  warned (run __DEV__ getComponentName host_call acts w).1 o = true /\
  warnings_about o (run __DEV__ getComponentName host_call acts w).2 = 0.
Proof.
  intros Hw. destruct (warned_is_object w o Hw) as [l Hl].
  rewrite (warned_flagged w o l Hl) in Hw.
  destruct (run_keeps_flagged __DEV__ getComponentName host_call acts w l Hw)
    as [Hkept Hquiet].
  split; [by rewrite (warned_flagged _ o l Hl)|].
  pose proof (warnings_about_on o l (run' acts w).2 Hl). lia.
Qed.

(** X6.  The warning is keyed on the object that bears the flag, not on
    the owner: along any sequence of actions, all the owners that share a
    flag holder (a fiber and its alternate, which have one [stateNode]) are
    warned about at most once between them. *)
Theorem run_warns_once_per_flag_holder acts w l :
  warnings_on l (run __DEV__ getComponentName host_call acts w).2 <= 1.
Proof. apply run_on_at_most_one. Qed.

Lemma step_instance_map a w :
  ReactInstanceMap (step __DEV__ getComponentName host_call a w).1
    = ReactInstanceMap w.
Proof.
  destruct a as [o|f|f|x]; simpl; try done.
  rewrite findNodeHandle_final.
  by destruct (entry_world_frame __DEV__ getComponentName w) as (-> & _).
Qed.

Lemma step_production a w :
  __DEV__ = false ->
  heap (step __DEV__ getComponentName host_call a w).1 = heap w /\
  List.filter is_warning (step __DEV__ getComponentName host_call a w).2 = [].
Proof.
  intros Hdev. destruct a as [o|f|f|x]; simpl; try done.
  rewrite findNodeHandle_final, findNodeHandle_warnings.
  rewrite (entry_world_production _ getComponentName w Hdev).
  by rewrite (dev_trace_production _ getComponentName w Hdev).
Qed.

(** X7.  No sequence of actions changes the instance map: the module only
    reads it.  In production mode no sequence changes any object or prints
    any warning. *)
Theorem run_frame acts w :
  ReactInstanceMap (run __DEV__ getComponentName host_call acts w).1
    = ReactInstanceMap w /\
  (__DEV__ = false ->
   heap (run __DEV__ getComponentName host_call acts w).1 = heap w /\
   List.filter is_warning
     (run __DEV__ getComponentName host_call acts w).2 = []).
Proof.
  revert w. induction acts as [|a acts IH]; intros w; [done|]. simpl.
  pose proof (step_instance_map a w) as Hmap.
  pose proof (step_production a w) as Hprod.
  destruct (step __DEV__ getComponentName host_call a w) as [w1 t1].
  simpl in *.
  destruct (IH w1) as [IHmap IHprod].
  destruct (run' acts w1) as [w2 t2]. simpl in *.
  split; [congruence|]. intros Hdev.
  destruct (Hprod Hdev) as [Hh1 Ht1]. destruct (IHprod Hdev) as [Hh2 Ht2].
  split; [congruence|]. by rewrite List.filter_app, Ht1, Ht2.
Qed.

(** *** Injection, once more *)

(** X12.  The injectors validate nothing.  A value that is not a function
    is stored like any other; a call whose development check completes
    does not notice it for null, undefined or a number, and fails with the
    type error of calling a non-function as soon as it has to invoke the
    slot. *)
Theorem injection_is_unchecked callee x w :
  (forall l, callee <> VFunction l) ->
  check_completes' w = true ->
  (is_nullish x = true \/ typeof x = "number" ->
   outcome (findNodeHandle __DEV__ getComponentName host_call x
              (injectFindNode callee (injectFindRootNodeID callee w)))
     = Return (if is_nullish x then VNull else x)) /\
  (is_nullish x = false -> typeof x <> "number" ->
   truthy (ReactInstanceMap_get w x) = true ->
   outcome (findNodeHandle __DEV__ getComponentName host_call x
              (injectFindNode callee w))
     = Throw (TypeError (NotAFunction callee))) /\
  (is_nullish x = false -> typeof x <> "number" ->
   truthy (ReactInstanceMap_get w x) = false ->
   outcome (findNodeHandle __DEV__ getComponentName host_call x
              (injectFindRootNodeID callee w))
     = Throw (TypeError (NotAFunction callee))).
Proof.
  intros Hcallee Hok.
  assert (forall w', call_value host_call w' callee =
            fun _ => Throw (TypeError (NotAFunction callee))) as Hcall.
  { intros w'. destruct callee as [| | | | | | |l]; try done.
    by destruct (Hcallee l). }
  split; [|split].
  - intros Hx. rewrite findNodeHandle_runs by done. simpl.
    destruct (is_nullish x) eqn:Hnull.
    + by rewrite resolve_nullish.
    + destruct Hx as [|Hnum]; [done|].
      by destruct (typeof_number x Hnum) as [n ->].
  - intros Hnull Hnum Hinst.
    rewrite findNodeHandle_mounted by done. simpl. by rewrite Hcall.
  - intros Hnull Hnum Hinst.
    rewrite findNodeHandle_unmounted by done. simpl. by rewrite Hcall.
Qed.

Lemma warn_refs_in_render_injected (inject : world -> world) w :
  (forall w', heap (inject w') = heap w' /\
              ReactCurrentOwner_current (inject w')
                = ReactCurrentOwner_current w') ->
  (forall h w', inject (set_heap h w') = set_heap h (inject w')) ->
  entry_world' (inject w) = inject (entry_world' w) /\
  dev_trace' (inject w) = dev_trace' w.
Proof.
  intros Hframe Hcomm. destruct (Hframe w) as [Hheap Hown].
  destruct (check_cases __DEV__ w)
    as [Hdev|[[Hdev Ho]|[(o&l&Hdev&Ho&Hl)|[(o&Hdev&Ho&Hn)|(o&Hdev&Ho&Hp)]]]].
  - by rewrite !entry_world_production, !dev_trace_production.
  - rewrite (entry_world_no_owner _ getComponentName w Ho).
    rewrite (dev_trace_no_owner _ getComponentName w Ho).
    rewrite entry_world_no_owner, dev_trace_no_owner by (by rewrite Hown).
    done.
  - assert (is_nullish (flag_holder o) = false) as Hn
      by (by destruct (flag_holder o)).
    rewrite (entry_world_object _ getComponentName w o l Hdev Ho Hl).
    rewrite (dev_trace_owner _ getComponentName w o Hdev Ho Hn).
    rewrite (entry_world_object _ getComponentName (inject w) o l Hdev)
      by (by rewrite ?Hown).
    rewrite (dev_trace_owner _ getComponentName (inject w) o Hdev)
      by (by rewrite ?Hown).
    rewrite Hheap, Hcomm. split; [done|].
    unfold warned, warnedAboutRefsInRender. by rewrite Hheap.
  - assert (address_of (flag_holder o) = None) as Hl
      by (by destruct (flag_holder o)).
    rewrite (entry_world_not_object _ getComponentName w o Ho Hl).
    rewrite (entry_world_not_object _ getComponentName (inject w) o)
      by (by rewrite ?Hown).
    rewrite (dev_trace_nullish _ getComponentName w o Ho Hn).
    rewrite (dev_trace_nullish _ getComponentName (inject w) o)
      by (by rewrite ?Hown).
    done.
  - assert (address_of (flag_holder o) = None) as Hl
      by (by destruct (flag_holder o)).
    assert (is_nullish (flag_holder o) = false) as Hn
      by (by destruct (flag_holder o)).
    rewrite (entry_world_not_object _ getComponentName w o Ho Hl).
    rewrite (entry_world_not_object _ getComponentName (inject w) o)
      by (by rewrite ?Hown).
    rewrite (dev_trace_owner _ getComponentName w o Hdev Ho Hn).
    rewrite (dev_trace_owner _ getComponentName (inject w) o Hdev)
      by (by rewrite ?Hown).
    unfold warned, warnedAboutRefsInRender. by rewrite Hheap.
Qed.

(** X13.  Injection and calls do not interfere.  The two injectors commute
    and a second injection into a slot overwrites the first; injecting
    before a call or after it leaves the same state, and the call prints
    the same warnings either way. *)
Theorem injection_commutes_with_calls f g x w :
  injectFindNode f (injectFindRootNodeID g w)
    = injectFindRootNodeID g (injectFindNode f w) /\
  injectFindNode f (injectFindNode g w) = injectFindNode f w /\
  injectFindRootNodeID f (injectFindRootNodeID g w)
    = injectFindRootNodeID f w /\
  final (findNodeHandle __DEV__ getComponentName host_call x
           (injectFindNode f (injectFindRootNodeID g w)))
    = injectFindNode f
        (injectFindRootNodeID g
           (final (findNodeHandle __DEV__ getComponentName host_call x w))) /\
  List.filter is_warning
    (trace (findNodeHandle __DEV__ getComponentName host_call x
              (injectFindNode f (injectFindRootNodeID g w))))
    = List.filter is_warning
        (trace (findNodeHandle __DEV__ getComponentName host_call x w)).
Proof.
  split; [done|]. split; [done|]. split; [done|].
  rewrite !findNodeHandle_final, !findNodeHandle_warnings.
  apply (warn_refs_in_render_injected
           (fun w' => injectFindNode f (injectFindRootNodeID g w')) w);
    done.
Qed.

End MoreProperties.

(** *** Development against production *)

Lemma call_value_same_host
    (host_call : world -> loc -> value -> result value) w w' callee argument :
  (forall l v, host_call w' l v = host_call w l v) ->
  call_value host_call w' callee argument
    = call_value host_call w callee argument.
Proof. intros Hhost. destruct callee; simpl; try done. Qed.

(** X11.  The development check, when it completes, does not change what a
    call answers.  Provided the host functions answer the same before and
    after the flag is written, a development call whose check completes and
    a production call from the same state have the same outcome; the one
    exception is the "not a component" failure on the owner's own flag
    holder, whose reported keys may differ, the flag having just been
    written on the argument. *)
Theorem findNodeHandle_same_outcome_in_both_modes
    (getComponentName : owner -> value)
    (host_call : world -> loc -> value -> result value) x w :
  check_completes true w = true ->
  (forall l v,
     host_call (entry_world true getComponentName w) l v = host_call w l v) ->
  let dev := outcome (findNodeHandle true getComponentName host_call x w) in
  let prod := outcome (findNodeHandle false getComponentName host_call x w) in
  (dev = prod \/
   exists ks ks',
     dev = Throw (InvariantViolation not_a_component_format
                    [AValue (VString (typeof x)); AKeys ks]) /\
     prod = Throw (InvariantViolation not_a_component_format
                     [AValue (VString (typeof x)); AKeys ks'])) /\
  (address_of x = None \/
   address_of x <> ReactCurrentOwner_current w ≫= flag_address ->
   dev = prod).
Proof.
  intros Hok Hhost. cbv zeta.
  assert (check_completes false w = true) as Hokp by done.
  assert (entry_world false getComponentName w = w) as Hprod
    by (by apply entry_world_production).
  destruct (is_nullish x) eqn:Hnull.
  { rewrite !findNodeHandle_runs, !resolve_nullish by done. simpl.
    split; [by left | done]. }
  destruct (decide (typeof x = "number")) as [Hnum|Hnum].
  { destruct (typeof_number x Hnum) as [n ->].
    rewrite !findNodeHandle_runs by done. simpl. split; [by left | done]. }
  destruct (truthy (ReactInstanceMap_get w x)) eqn:Hinst.
  { rewrite !findNodeHandle_mounted by done. simpl. rewrite ?Hprod.
    rewrite (call_value_same_host host_call w _ _ _ Hhost).
    split; [by left | done]. }
  rewrite !findNodeHandle_unmounted by done. simpl. rewrite ?Hprod.
  rewrite (call_value_same_host host_call w _ _ _ Hhost).
  destruct (call_value host_call w (injectedFindRootNodeID w) x) as [v|e];
    simpl; [|split; [by left | done]].
  destruct (truthy v); [split; [by left | done]|].
  rewrite (is_component_entry true getComponentName w x).
  destruct (is_component (heap w) x); [split; [by left | done]|].
  split; [right; eauto|].
  intros Hx. do 3 f_equal.
  destruct (ReactCurrentOwner_current w) as [o|] eqn:Ho.
  - simpl in Hx. unfold flag_address in Hx.
    destruct (address_of (flag_holder o)) as [l|] eqn:Hl.
    + rewrite (entry_world_object true getComponentName w o l eq_refl Ho Hl).
      simpl. rewrite keys_heap_set_other; [done|].
      destruct Hx as [Hx|Hx]; congruence.
    + by rewrite (entry_world_not_object true getComponentName w o Ho Hl).
  - by rewrite (entry_world_no_owner true getComponentName w Ho).
Qed.

(** *** The further properties at work on the sample states *)

Lemma findNodeHandle_writes_only_the_flag_witness :
  obj_get (heap_obj
             (heap (final (findNodeHandle true sample_name sample_host
                             (VObject 10%positive) sample_world)))
             10%positive) "props" = VNull /\
  heap (final (findNodeHandle true sample_name sample_host
                 (VObject 10%positive) sample_world)) !! 11%positive
    = sample_heap !! 11%positive.
Proof.
  pose proof (findNodeHandle_writes_only_the_flag true sample_name sample_host
                (VObject 10%positive) sample_world) as (Hprops & Hobjs & _).
  split.
  - refine (eq_trans (proj1 (Hprops 10%positive "props" _)) eq_refl).
    discriminate.
  - apply (Hobjs 11%positive). discriminate.
Defined.

Lemma findNodeHandle_flag_written_witness :
  obj_get (heap_obj
             (heap (final (findNodeHandle true sample_name sample_host
                             (VNumber seven) sample_world)))
             10%positive) warnedAboutRefsInRender_key = VBool true /\
  obj_keys (heap_obj
              (heap (final (findNodeHandle true sample_name sample_host
                              (VNumber seven) sample_world)))
              10%positive) = ["props"; "_warnedAboutRefsInRender"].
Proof.
  exact (findNodeHandle_flag_written true sample_name sample_host
           (VNumber seven) sample_world sample_owner 10%positive
           eq_refl eq_refl eq_refl).
Defined.

(** The proviso of X4 is needed: a fiber whose [stateNode] is a number is
    warned about at every call. *)
Lemma findNodeHandle_effect_idempotent_witness :
  List.filter is_warning
    (trace (findNodeHandle true sample_name sample_host VNull
              (final (findNodeHandle true sample_name sample_host
                        (VObject 12%positive) sample_world)))) = [] /\
  List.filter is_warning
    (trace (findNodeHandle true sample_name sample_host VNull
              (final (findNodeHandle true sample_name sample_host
                        (VObject 12%positive) text_world))))
    = [EvWarning text_owner refs_in_render_format [AValue (VString "Foo")]].
Proof.
  split; [|reflexivity].
  apply (proj2 (findNodeHandle_effect_idempotent true sample_name sample_host
                  (VObject 12%positive) VNull sample_world)).
  intros o [= <-]. reflexivity.
Defined.

Lemma findNodeHandle_falsy_result_witness :
  outcome (findNodeHandle false sample_name sample_host (VObject 10%positive)
             zero_world) = Return (VNumber (S754_zero false)) /\
  call_value sample_host zero_world (VFunction 2%positive)
    (VObject 30%positive) = Return (VNumber (S754_zero false)).
Proof.
  split; [reflexivity|].
  destruct (findNodeHandle_falsy_result false sample_name sample_host
              (VObject 10%positive) zero_world (VNumber (S754_zero false))
              eq_refl eq_refl)
    as [[Hnull _]|[[Hnum _]|(_ & _ & _ & Hcall)]].
  - discriminate Hnull.
  - discriminate Hnum.
  - exact Hcall.
Defined.


Lemma findNodeHandle_warning_names_owner_witness :
  exists o name,
    true = true /\ ReactCurrentOwner_current sample_world = Some o /\
    warned sample_world o = false /\
    EvWarning sample_owner refs_in_render_format [AValue (VString "Foo")]
      = EvWarning o refs_in_render_format [AValue name] /\
    name = (if truthy (sample_name o) then sample_name o
            else VString "A component") /\
    truthy name = true /\
    head (trace (findNodeHandle true sample_name sample_host VNull sample_world))
      = Some (EvWarning sample_owner refs_in_render_format
                [AValue (VString "Foo")]).
Proof.
  apply (findNodeHandle_warning_names_owner true sample_name sample_host
           VNull sample_world).
  - apply list_elem_of_In. left. reflexivity.
  - reflexivity.
Defined.

Lemma run_never_clears_a_flag_witness :
  warned warned_world sample_owner = true /\
  warned (run true sample_name sample_host
            [SetCurrentOwner (Some sample_alternate);
             CallFindNodeHandle (VObject 12%positive);
             SetCurrentOwner (Some functional_owner);
             CallFindNodeHandle (VNumber seven);
             SetCurrentOwner (Some sample_owner);
             CallFindNodeHandle VNull] warned_world).1 sample_owner = true /\
  warnings_about sample_owner
    (run true sample_name sample_host
       [SetCurrentOwner (Some sample_alternate);
        CallFindNodeHandle (VObject 12%positive);
        SetCurrentOwner (Some functional_owner);
        CallFindNodeHandle (VNumber seven);
        SetCurrentOwner (Some sample_owner);
        CallFindNodeHandle VNull] warned_world).2 = 0.
Proof.
  split; [reflexivity|].
  apply (run_never_clears_a_flag true sample_name sample_host). reflexivity.
Defined.

Lemma run_frame_witness :
  heap (run false sample_name sample_host
          [CallFindNodeHandle VNull; InjectFindNode VNull;
           CallFindNodeHandle (VObject 10%positive)] sample_world).1
    = sample_heap /\
  List.filter is_warning
    (run false sample_name sample_host
       [CallFindNodeHandle VNull; InjectFindNode VNull;
        CallFindNodeHandle (VObject 10%positive)] sample_world).2 = [].
Proof.
  apply (proj2 (run_frame false sample_name sample_host
                  [CallFindNodeHandle VNull; InjectFindNode VNull;
                   CallFindNodeHandle (VObject 10%positive)] sample_world)).
  reflexivity.
Defined.

Lemma injection_is_unchecked_witness :
  outcome (findNodeHandle true sample_name sample_host (VNumber seven)
             (injectFindNode VNull (injectFindRootNodeID VNull sample_world)))
    = Return (VNumber seven) /\
  outcome (findNodeHandle true sample_name sample_host (VObject 10%positive)
             (injectFindNode VNull sample_world))
    = Throw (TypeError (NotAFunction VNull)) /\
  outcome (findNodeHandle true sample_name sample_host (VObject 12%positive)
             (injectFindRootNodeID VNull sample_world))
    = Throw (TypeError (NotAFunction VNull)).
Proof.
  assert (forall l : loc, VNull <> VFunction l) as Hnull
    by (intros l; discriminate).
  split; [|split].
  - refine (proj1 (injection_is_unchecked true sample_name sample_host VNull
                     (VNumber seven) sample_world Hnull eq_refl) _).
    right. reflexivity.
  - refine (proj1 (proj2 (injection_is_unchecked true sample_name sample_host
                            VNull (VObject 10%positive) sample_world Hnull
                            eq_refl))
              _ _ _); [reflexivity | discriminate | reflexivity].
  - refine (proj2 (proj2 (injection_is_unchecked true sample_name sample_host
                            VNull (VObject 12%positive) sample_world Hnull
                            eq_refl))
              _ _ _); [reflexivity | discriminate | reflexivity].
Defined.

Lemma findNodeHandle_same_outcome_in_both_modes_witness :
  outcome (findNodeHandle true sample_name sample_host (VObject 12%positive)
             sample_world) =
    outcome (findNodeHandle false sample_name sample_host (VObject 12%positive)
               sample_world) /\
  outcome (findNodeHandle true sample_name sample_host (VObject 12%positive)
             stack_world) =
    Throw (InvariantViolation not_a_component_format
             [AValue (VString "object");
              AKeys ["a"; "_warnedAboutRefsInRender"]]) /\
  outcome (findNodeHandle false sample_name sample_host (VObject 12%positive)
             stack_world) =
    Throw (InvariantViolation not_a_component_format
             [AValue (VString "object"); AKeys ["a"]]).
Proof.
  split; [|split; reflexivity].
  apply (findNodeHandle_same_outcome_in_both_modes sample_name sample_host
           (VObject 12%positive) sample_world).
  - reflexivity.
  - reflexivity.
  - right. discriminate.
Defined.
